(** * Workers AI plugin for Genkit (Go): conversation and tool-call adapter

    A shallow embedding of the two generations of
    [go/plugins/workersai/workersai.go]:

    - [Http]: the first adapter, which talks to the REST endpoint itself
      (text only: [supportsChatFormat], [buildPrompt], [handleResponse]);
    - [Client]: the later adapter built on the workers-ai-golang client
      library, with tool calling ([toClientMessages],
      [toGenkitToolRequestParts], [simplifyArguments]).

    Go values of type [any] are an inductive type, [map[string]any] is a
    [gmap string any], a Go [(T, error)] result is [Result T], and an error
    value records the call that built it ([fmt.Errorf], [errors.Wrapf], ...)
    with its operands, so that "the error names tool X" is a statement about
    an operand and not about formatted text.  The packages the plugin imports
    ([encoding/json], [net/http], the client library) are interfaces (type
    classes); [GoJSON] gives an executable instance of [encoding/json] for
    running the functions on concrete histories. *)

From Stdlib Require Import ZArith Ascii String List.
From stdpp Require Import base option list gmap strings.

Set Default Proof Using "Type".
Set Warnings "-register-all".
Open Scope string_scope.
Open Scope list_scope.

(** ** Go values *)

(** A dynamically typed Go value ([any]).  A number is kept as a JSON
    literal and stands for the [float64] nearest to it: which [float64] that
    is, and the shortest literal [encoding/json] writes it back with, are
    not modelled.  [Chan] stands for the values [encoding/json] refuses to
    encode (channels, functions). *)
Inductive any : Type :=
| Nil
| Bool (b : bool)
| Number (lit : string)
| Str (s : string)
| Slice (l : list any)
| Map (m : gmap string any)
| Chan.

(** One entry of the provider's [errors] array. *)
Module APIError.
Record t : Type := mk { Code : Z; Message : string }.
End APIError.

(** Go error values, by the call that constructs them.  [fmt_Errorf] keeps
    the format string and the operands apart. *)
Inductive error : Type :=
| errors_New (text : string)
| fmt_Errorf (format : string) (a : list operand)
| errors_Wrap (cause : error) (message : string)
| errors_Wrapf (cause : error) (format : string) (a : list operand)
with operand : Type :=
| OpString (s : string)
| OpInt (n : Z)
| OpError (e : error)
| OpErrors (l : list APIError.t).

(** A Go result pair [(T, error)]: exactly one of the two is meaningful. *)
Inductive Result (A : Type) : Type :=
| Ok (a : A)
| Err (e : error).
Arguments Ok {A} a.
Arguments Err {A} e.

Definition isOk {A} (r : Result A) : bool :=
  match r with Ok _ => true | Err _ => false end.

(** ** Package [strings] *)

(** The one-character string with a line feed. *)
Definition LF : string := String "010"%char EmptyString.

(** [strings.Contains(s, substr)], by trying every suffix of [s]. *)
Fixpoint strings_Contains (s substr : string) : bool :=
  String.prefix substr s ||
  match s with
  | EmptyString => false
  | String _ s' => strings_Contains s' substr
  end.

(** [strings.ToLower] on ASCII letters. *)
Definition ascii_ToLower (c : ascii) : ascii :=
  let n := nat_of_ascii c in
  if (65 <=? n)%nat && (n <=? 90)%nat then ascii_of_nat (n + 32) else c.

Fixpoint strings_ToLower (s : string) : string :=
  match s with
  | EmptyString => EmptyString
  | String c s' => String (ascii_ToLower c) (strings_ToLower s')
  end.

(** ** Package [ai] (canonical conversation) *)

(** Modelled from the spec: [ai.Role] and its four constants are declared in
    the [ai] package, which is not among the sources.  The roles are system,
    user, model and tool; [Role] is a string type, so that a role outside
    these four is a value too. *)
Definition Role : Type := string.
Definition RoleSystem : Role := "system".
Definition RoleUser : Role := "user".
Definition RoleModel : Role := "model".
Definition RoleTool : Role := "tool".

(** Modelled from the spec: [ai.ToolRequest] (ref, name, input), as the tests
    build it. *)
Module ToolRequest.
Record t : Type := mk { Ref : string; Name : string; Input : any }.
End ToolRequest.

(** Modelled from the spec: [ai.ToolResponse] (ref, name, output). *)
Module ToolResponse.
Record t : Type := mk { Ref : string; Name : string; Output : any }.
End ToolResponse.

(** Modelled from the spec: [ai.Part] is a tagged variant: text, tool request
    or tool response; [MediaPart] stands for the kinds that are none of
    these.  A part has a field [Text] whatever its kind
    ([concatenateTextParts] reads it behind a kind test): the text of a text
    part, the URL of a media part, empty in a tool request or response. *)
Inductive Part : Type :=
| TextPart (text : string)
| MediaPart (contentType text : string)
| ToolRequestPart (tr : ToolRequest.t)
| ToolResponsePart (tr : ToolResponse.t).

(** Modelled from the spec: the kind tests of [ai.Part]. *)
Definition IsText (p : Part) : bool :=
  match p with TextPart _ => true | _ => false end.
Definition IsToolRequest (p : Part) : bool :=
  match p with ToolRequestPart _ => true | _ => false end.
Definition IsToolResponse (p : Part) : bool :=
  match p with ToolResponsePart _ => true | _ => false end.

(** Modelled from the spec: [ai.Message], a role and an ordered list of
    parts. *)
Module Message.
Record t : Type := mk { Role : Role; Content : list Part }.

(** Modelled from the spec: the method [Text] of [ai.Message] is declared in
    the [ai] package.  It is the concatenation, in order, of the field [Text]
    of the parts, without a kind test: on text parts it is the concatenation
    of all text parts that the specification speaks of, and a media part
    adds its URL. *)
Fixpoint textOf (parts : list Part) : string :=
  match parts with
  | [] => ""
  | TextPart s :: rest => s +:+ textOf rest
  | MediaPart _ s :: rest => s +:+ textOf rest
  | _ :: rest => textOf rest
  end.

Definition Text (m : t) : string := textOf (Content m).
End Message.

(** Modelled from the spec: [ai.ToolDefinition] (name, description, input
    schema; the schema may be nil). *)
Module ToolDefinition.
Record t : Type :=
  mk { Name : string; Description : string;
       InputSchema : option (gmap string any) }.
End ToolDefinition.

(** Modelled from the spec: the finish reason, the usage counts, and the
    request and response of one turn, with the fields the plugin sets. *)
Definition FinishReason : Type := string.
Definition FinishReasonStop : FinishReason := "stop".

Module GenerationUsage.
Record t : Type := mk { InputTokens : Z; OutputTokens : Z }.
End GenerationUsage.

Module ModelRequest.
Record t : Type :=
  mk { Messages : list Message.t; Tools : list ToolDefinition.t }.
End ModelRequest.

Module ModelResponse.
Record t : Type :=
  mk { Request : ModelRequest.t;
       Message : Message.t;
       FinishReason : FinishReason;
       Usage : GenerationUsage.t }.
End ModelResponse.

(** ** Package [encoding/json] *)

(** The two entry points the plugin uses on dynamically typed data:
    [json.Marshal(v)] for [v : any], and [json.Unmarshal(data, &m)] for
    [m : map[string]any] (a nil map reads as the empty map). *)
Class encoding_json : Type := {
  json_Marshal : any → Result string;
  json_Unmarshal : string → Result (gmap string any)
}.

(** * The client-library adapter *)

Module Client.

(** ** Package [client] (workers-ai-golang) *)

Module FunctionToCall.
Record t : Type := mk { Name : string; Arguments : string }.
End FunctionToCall.

Module ToolCall.
Record t : Type :=
  mk { ID : string; Type_ : string; Function : FunctionToCall.t }.
End ToolCall.

(** [client.Message] is an interface; the plugin builds three kinds of
    values for it.  [ResponseMessage.Content] is a [*string]. *)
Inductive Message : Type :=
| ChatMessage (Role Content : string)
| ResponseMessage (Role : string) (ToolCalls : list ToolCall.t)
    (Content : option string)
| ToolMessage (Role Content ToolCallID : string).

Module FunctionDefinition.
Record t (P : Type) : Type :=
  mk { Name : string; Description : string; Parameters : P }.
Arguments mk {P}.
End FunctionDefinition.

Module Tool.
Record t (P : Type) : Type :=
  mk { Type_ : string; Function : FunctionDefinition.t P }.
Arguments mk {P}.
End Tool.

Module Usage.
Record t : Type := mk { PromptTokens : Z; CompletionTokens : Z }.
End Usage.

(** The reply of [ChatWithTools], with the values of its accessor methods
    [GetToolCalls] and [GetContent]. *)
Module Response.
Record t : Type :=
  mk { Success : bool;
       Errors : list APIError.t;
       IsLegacyResult : bool;
       LegacyResponse_Usage : Usage.t;
       ChatCompletionResponse_Usage : Usage.t;
       GetToolCalls : list ToolCall.t;
       GetContent : string }.
End Response.

(** What the adapter needs from the library: the schema type
    [client.FunctionParameters] with its zero value and JSON decoding, and
    the chat call of a [*client.Client]. *)
Class workers_ai : Type := {
  FunctionParameters : Type;
  FunctionParameters_zero : FunctionParameters;
  json_Unmarshal_FunctionParameters : string → Result FunctionParameters;
  client_Client : Type;
  ChatWithTools :
    client_Client → string → list Message →
    list (Tool.t FunctionParameters) → Result Response.t
}.

Module generator.
Record t `{workers_ai} : Type := mk { model : string; client : client_Client }.
End generator.

(** ** [simplifyArguments] *)

(** The loop [for key, val := range rawArgs] of [simplifyArguments], which
    [toGenkitToolRequestParts] repeats verbatim: it fills a fresh map, one
    assignment per key. *)
Definition simplifyLoop (rawArgs : gmap string any) : gmap string any :=
  map_fold
    (λ (key : string) (val : any) (simplifiedArgs : gmap string any),
       match val with
       | Map argObject =>
           match argObject !! "value" with
           | Some value => <[key := value]> simplifiedArgs
           | None => <[key := val]> simplifiedArgs
           end
       | _ => <[key := val]> simplifiedArgs
       end)
    ∅ rawArgs.

Definition simplifyArguments `{encoding_json} (argsJSON : string)
  : Result (gmap string any) :=
  match json_Unmarshal argsJSON with
  | Err err =>
      Err (fmt_Errorf "failed to unmarshal tool arguments from string: %w"
             [OpError err])
  | Ok rawArgs => Ok (simplifyLoop rawArgs)
  end.

(** ** [toGenkitToolRequestParts] *)

Fixpoint toGenkitToolRequestParts_from `{encoding_json}
    (calls : list ToolCall.t) (toolRequestParts : list Part)
  : Result (list Part) :=
  match calls with
  | [] => Ok toolRequestParts
  | call :: calls' =>
      let fn := ToolCall.Function call in
      match json_Unmarshal (FunctionToCall.Arguments fn) with
      | Err err =>
          Err (fmt_Errorf "failed to unmarshal tool arguments for '%s': %w"
                 [OpString (FunctionToCall.Name fn); OpError err])
      | Ok rawArgs =>
          let simplifiedArgs := simplifyLoop rawArgs in
          let tr :=
            ToolRequest.mk (ToolCall.ID call) (FunctionToCall.Name fn)
              (Map simplifiedArgs) in
          toGenkitToolRequestParts_from calls'
            (toolRequestParts ++ [ToolRequestPart tr])
      end
  end.

Definition toGenkitToolRequestParts `{encoding_json}
    (calls : list ToolCall.t) : Result (list Part) :=
  toGenkitToolRequestParts_from calls [].

(** ** [toClientTools] *)

Fixpoint toClientTools_from `{encoding_json} `{workers_ai}
    (defs : list ToolDefinition.t) (tools : list (Tool.t FunctionParameters))
  : Result (list (Tool.t FunctionParameters)) :=
  match defs with
  | [] => Ok tools
  | def :: defs' =>
      let name := ToolDefinition.Name def in
      let params :=
        match ToolDefinition.InputSchema def with
        | None => Ok FunctionParameters_zero
        | Some schema =>
            match json_Marshal (Map schema) with
            | Err err =>
                Err (errors_Wrapf err "failed to marshal schema for tool %s"
                       [OpString name])
            | Ok schemaBytes =>
                match json_Unmarshal_FunctionParameters schemaBytes with
                | Err err =>
                    Err (errors_Wrapf err
                           "failed to unmarshal schema for tool %s"
                           [OpString name])
                | Ok params => Ok params
                end
            end
        end in
      match params with
      | Err err => Err err
      | Ok params =>
          toClientTools_from defs'
            (tools ++
             [Tool.mk "function"
                (FunctionDefinition.mk name (ToolDefinition.Description def)
                   params)])
      end
  end.

Definition toClientTools `{encoding_json} `{workers_ai}
    (defs : list ToolDefinition.t)
  : Result (list (Tool.t FunctionParameters)) :=
  toClientTools_from defs [].

(** ** [convertRole] *)

Definition convertRole (role : Role) : string :=
  if String.eqb role RoleUser then "user"
  else if String.eqb role RoleModel then "assistant"
  else if String.eqb role RoleSystem then "system"
  else if String.eqb role RoleTool then "tool"
  else "user".

(** ** [toClientMessages] *)

(** [case ai.RoleTool]: the loop over the parts of a tool message. *)
Fixpoint toolMessages `{encoding_json}
    (parts : list Part) (clientMsgs : list Message) : Result (list Message) :=
  match parts with
  | [] => Ok clientMsgs
  | ToolResponsePart tr :: parts' =>
      match json_Marshal (ToolResponse.Output tr) with
      | Err err =>
          Err (errors_Wrapf err "failed to marshal tool output for %s"
                 [OpString (ToolResponse.Name tr)])
      | Ok outputBytes =>
          toolMessages parts'
            (clientMsgs ++
             [ToolMessage "tool" outputBytes (ToolResponse.Ref tr)])
      end
  | _ :: parts' => toolMessages parts' clientMsgs
  end.

(** [case ai.RoleModel]: the loop that collects [toolCalls]. *)
Fixpoint modelToolCalls `{encoding_json}
    (parts : list Part) (toolCalls : list ToolCall.t)
  : Result (list ToolCall.t) :=
  match parts with
  | [] => Ok toolCalls
  | ToolRequestPart tr :: parts' =>
      match json_Marshal (ToolRequest.Input tr) with
      | Err err =>
          Err (errors_Wrapf err "failed to marshal tool input for %s"
                 [OpString (ToolRequest.Name tr)])
      | Ok argsBytes =>
          modelToolCalls parts'
            (toolCalls ++
             [ToolCall.mk (ToolRequest.Ref tr) "function"
                (FunctionToCall.mk (ToolRequest.Name tr) argsBytes)])
      end
  | _ :: parts' => modelToolCalls parts' toolCalls
  end.

(** One iteration of [for _, msg := range messages]: the [switch msg.Role]. *)
Definition toClientMessage `{encoding_json}
    (msg : Message.t) (clientMsgs : list Message) : Result (list Message) :=
  let role := Message.Role msg in
  if String.eqb role RoleTool then
    toolMessages (Message.Content msg) clientMsgs
  else if String.eqb role RoleModel then
    match modelToolCalls (Message.Content msg) [] with
    | Err err => Err err
    | Ok toolCalls =>
        if (0 <? length toolCalls)%nat then
          Ok (clientMsgs ++ [ResponseMessage "assistant" toolCalls (Some "")])
        else if negb (String.eqb (Message.Text msg) "") then
          Ok (clientMsgs ++ [ChatMessage "assistant" (Message.Text msg)])
        else Ok clientMsgs
    end
  else if String.eqb role RoleUser || String.eqb role RoleSystem then
    Ok (clientMsgs ++ [ChatMessage (convertRole role) (Message.Text msg)])
  else Ok clientMsgs.

Fixpoint toClientMessages_from `{encoding_json}
    (messages : list Message.t) (clientMsgs : list Message)
  : Result (list Message) :=
  match messages with
  | [] => Ok clientMsgs
  | msg :: messages' =>
      match toClientMessage msg clientMsgs with
      | Err err => Err err
      | Ok clientMsgs' => toClientMessages_from messages' clientMsgs'
      end
  end.

Definition toClientMessages `{encoding_json} (messages : list Message.t)
  : Result (list Message) :=
  toClientMessages_from messages [].

(** ** [generate] *)

Definition generate `{encoding_json} `{workers_ai}
    (gen : generator.t) (input : ModelRequest.t) : Result ModelResponse.t :=
  match toClientTools (ModelRequest.Tools input) with
  | Err err => Err (errors_Wrap err "failed to convert tools")
  | Ok clientTools =>
  match toClientMessages (ModelRequest.Messages input) with
  | Err err => Err (errors_Wrap err "failed to convert messages")
  | Ok clientMessages =>
  match ChatWithTools (generator.client gen) (generator.model gen)
          clientMessages clientTools with
  | Err err => Err (errors_Wrap err "workersai client failed")
  | Ok resp =>
  if negb (Response.Success resp) then
    Err (fmt_Errorf "workersai API returned an error: %v"
           [OpErrors (Response.Errors resp)])
  else
    let u :=
      if Response.IsLegacyResult resp then Response.LegacyResponse_Usage resp
      else Response.ChatCompletionResponse_Usage resp in
    let usage :=
      GenerationUsage.mk (Usage.PromptTokens u) (Usage.CompletionTokens u) in
    let toolCalls := Response.GetToolCalls resp in
    if (0 <? length toolCalls)%nat then
      match toGenkitToolRequestParts toolCalls with
      | Err err => Err err
      | Ok toolRequestParts =>
          Ok (ModelResponse.mk input (Message.mk RoleModel toolRequestParts)
                FinishReasonStop usage)
      end
    else
      Ok (ModelResponse.mk input
            (Message.mk RoleModel [TextPart (Response.GetContent resp)])
            FinishReasonStop usage)
  end end end.

End Client.

(** * The REST adapter *)

Module Http.

Module workersAIMessage.
Record t : Type := mk { Role : string; Content : string }.
End workersAIMessage.

Module workersAIRequest.
Record t : Type :=
  mk { Messages : list workersAIMessage.t; Prompt : string; Stream : bool }.
End workersAIRequest.

Module workersAIResponse.
Record t : Type :=
  mk { Success : bool;
       Result_Response : string;
       Errors : list APIError.t;
       Messages : list any }.
End workersAIResponse.

(** ** Package [net/http] and the typed uses of [encoding/json] *)

Module Request.
Record t : Type :=
  mk { Method : string; URL : string; Body : string;
       Header : gmap string string }.
End Request.

(** A reply with the outcome of [io.ReadAll(resp.Body)]: the bytes read and
    the read error, if any. *)
Module Response.
Record t : Type :=
  mk { StatusCode : Z; Body : string; ReadAll_err : option error }.
End Response.

Definition StatusOK : Z := 200.

Class net_http : Type := {
  http_Client : Type;
  http_NewRequestWithContext : string → string → string → Result Request.t;
  client_Do : http_Client → Request.t → Result Response.t;
  json_Marshal_workersAIRequest : workersAIRequest.t → Result string;
  json_Unmarshal_workersAIResponse : string → Result workersAIResponse.t
}.

Module generator.
Record t `{net_http} : Type :=
  mk { model : string; apiToken : string; accountID : string;
       baseURL : string; client : http_Client }.
End generator.

(** ** Helper functions *)

Definition convertRole (role : Role) : string :=
  if String.eqb role RoleUser then "user"
  else if String.eqb role RoleModel then "assistant"
  else if String.eqb role RoleSystem then "system"
  else "user".

Fixpoint concatenateTextParts (parts : list Part) : string :=
  match parts with
  | [] => ""
  | TextPart text :: parts' => text +:+ concatenateTextParts parts'
  | _ :: parts' => concatenateTextParts parts'
  end.

(** [buildPrompt]: one [builder.WriteString] per message with text. *)
Fixpoint buildPrompt (messages : list Message.t) : string :=
  match messages with
  | [] => ""
  | msg :: messages' =>
      let content := concatenateTextParts (Message.Content msg) in
      let role := Message.Role msg in
      (if negb (String.eqb content "") then
         if String.eqb role RoleSystem then "System: " +:+ content +:+ LF
         else if String.eqb role RoleUser then "User: " +:+ content +:+ LF
         else if String.eqb role RoleModel then
           "Assistant: " +:+ content +:+ LF
         else ""
       else "") +:+ buildPrompt messages'
  end.

Definition supportsChatFormat (model : string) : bool :=
  strings_Contains model "llama" ||
  strings_Contains model "mistral" ||
  strings_Contains model "qwen" ||
  strings_Contains model "gemma".

(** ** [generate] *)

(** The loop of the chat branch of [generate]. *)
Fixpoint chatMessages (msgs : list Message.t)
    (messages : list workersAIMessage.t) : list workersAIMessage.t :=
  match msgs with
  | [] => messages
  | msg :: msgs' =>
      let content := concatenateTextParts (Message.Content msg) in
      if negb (String.eqb content "") then
        chatMessages msgs'
          (messages ++
           [workersAIMessage.mk (convertRole (Message.Role msg)) content])
      else chatMessages msgs' messages
  end.

(** The request [generate] builds before it touches the network. *)
Definition buildRequest (model : string) (input : ModelRequest.t)
    (cb : bool) : workersAIRequest.t :=
  if supportsChatFormat model then
    workersAIRequest.mk (chatMessages (ModelRequest.Messages input) []) "" cb
  else
    workersAIRequest.mk [] (buildPrompt (ModelRequest.Messages input)) cb.

Definition handleResponse `{net_http}
    (resp : Response.t) (input : ModelRequest.t) : Result ModelResponse.t :=
  match Response.ReadAll_err resp with
  | Some err => Err (fmt_Errorf "failed to read response body: %w" [OpError err])
  | None =>
  match json_Unmarshal_workersAIResponse (Response.Body resp) with
  | Err err => Err (fmt_Errorf "failed to parse response: %w" [OpError err])
  | Ok workerResp =>
      if negb (workersAIResponse.Success workerResp) then
        let errMsg :=
          match workersAIResponse.Errors workerResp with
          | e0 :: _ => APIError.Message e0
          | [] => "API request failed"
          end in
        Err (fmt_Errorf errMsg [])
      else
        Ok (ModelResponse.mk input
              (Message.mk RoleModel
                 [TextPart (workersAIResponse.Result_Response workerResp)])
              "stop"
              (GenerationUsage.mk 0 0))
  end end.

Definition handleStreamingResponse `{net_http}
    (resp : Response.t) (input : ModelRequest.t) : Result ModelResponse.t :=
  handleResponse resp input.

(** [cb] tells whether a streaming callback was supplied ([cb != nil]). *)
Definition generate `{net_http}
    (gen : generator.t) (input : ModelRequest.t) (cb : bool)
  : Result ModelResponse.t :=
  let req := buildRequest (generator.model gen) input cb in
  let url :=
    generator.baseURL gen +:+ "/accounts/" +:+ generator.accountID gen +:+
    "/ai/run/@cf/" +:+ generator.model gen in
  match json_Marshal_workersAIRequest req with
  | Err err => Err (fmt_Errorf "failed to marshal request: %w" [OpError err])
  | Ok jsonData =>
  match http_NewRequestWithContext "POST" url jsonData with
  | Err err => Err (fmt_Errorf "failed to create request: %w" [OpError err])
  | Ok httpReq =>
  let httpReq :=
    Request.mk (Request.Method httpReq) (Request.URL httpReq)
      (Request.Body httpReq)
      (<["Authorization" := "Bearer " +:+ generator.apiToken gen]>
         (<["Content-Type" := "application/json"]> (Request.Header httpReq))) in
  match client_Do (generator.client gen) httpReq with
  | Err err => Err (fmt_Errorf "failed to make request: %w" [OpError err])
  | Ok resp =>
      if negb (Response.StatusCode resp =? StatusOK)%Z then
        Err (fmt_Errorf "API request failed with status %d: %s"
               [OpInt (Response.StatusCode resp);
                OpString (Response.Body resp)])
      else if cb then handleStreamingResponse resp input
      else handleResponse resp input
  end end end.

End Http.

(** * An executable [encoding/json] *)

(** A reference implementation of the [encoding/json] interface, after the
    package documentation and RFC 8259: objects are written with sorted keys
    and HTML-safe string escapes, and decoding into a [map[string]any]
    accepts an object or [null] and nothing else.  Bytes above 127 are copied
    as they are (the input is taken to be valid UTF-8). *)

Module GoJSON.

Definition DQ : string := String "034"%char EmptyString.

(** ** Encoding *)

Definition hexDigit (n : N) : ascii :=
  if (n <? 10)%N then ascii_of_N (48 + n) else ascii_of_N (87 + n).

Definition escapeChar (c : ascii) : string :=
  let n := N_of_ascii c in
  if (n =? 34)%N then "\" +:+ DQ
  else if (n =? 92)%N then "\\"
  else if (n =? 8)%N then "\b"
  else if (n =? 12)%N then "\f"
  else if (n =? 10)%N then "\n"
  else if (n =? 13)%N then "\r"
  else if (n =? 9)%N then "\t"
  else if (n <? 32)%N || (n =? 60)%N || (n =? 62)%N || (n =? 38)%N then
    "\u00" +:+ String (hexDigit (n / 16)) (String (hexDigit (n mod 16)) "")
  else String c "".

Fixpoint escape (s : string) : string :=
  match s with
  | EmptyString => ""
  | String c s' => escapeChar c +:+ escape s'
  end.

Definition quote (s : string) : string := DQ +:+ escape s +:+ DQ.

Definition isDigit (c : ascii) : bool :=
  let n := N_of_ascii c in (48 <=? n)%N && (n <=? 57)%N.

(** The longest prefix of digits, and what follows it. *)
Fixpoint digits (s : string) : string * string :=
  match s with
  | String c s' =>
      if isDigit c then let '(d, r) := digits s' in (String c d, r)
      else ("", s)
  | EmptyString => ("", "")
  end.

(** A JSON number literal at the head of [s]: an optional minus sign, an
    integer part with no leading zero, an optional fraction and an optional
    exponent. *)
Definition scanNumber (s : string) : option (string * string) :=
  let '(sign, s) :=
    match s with String "-" r => ("-", r) | _ => ("", s) end in
  let '(int, s) := digits s in
  match int with
  | EmptyString => None
  | String c int' =>
      if Ascii.eqb c "0" && negb (String.eqb int' "") then None else
      let frac :=
        match s with
        | String "." r =>
            let '(d, r') := digits r in
            if String.eqb d "" then None else Some ("." +:+ d, r')
        | _ => Some ("", s)
        end in
      match frac with
      | None => None
      | Some (frac, s) =>
          let exp :=
            match s with
            | String e r =>
                if Ascii.eqb e "e" || Ascii.eqb e "E" then
                  let '(sg, r) :=
                    match r with
                    | String "+" r' => ("+", r')
                    | String "-" r' => ("-", r')
                    | _ => ("", r)
                    end in
                  let '(d, r') := digits r in
                  if String.eqb d "" then None
                  else Some (String e sg +:+ d, r')
                else Some ("", s)
            | EmptyString => Some ("", s)
            end in
          match exp with
          | None => None
          | Some (exp, s) => Some (sign +:+ int +:+ frac +:+ exp, s)
          end
      end
  end.

Definition validNumber (lit : string) : bool :=
  match scanNumber lit with
  | Some (_, EmptyString) => true
  | _ => false
  end.

Fixpoint join (sep : string) (l : list string) : string :=
  match l with
  | [] => ""
  | [x] => x
  | x :: l' => x +:+ sep +:+ join sep l'
  end.

(** Every element encoded, or the first error. *)
Fixpoint sequence {A} (l : list (Result A)) : Result (list A) :=
  match l with
  | [] => Ok []
  | Err e :: _ => Err e
  | Ok a :: l' =>
      match sequence l' with Ok r => Ok (a :: r) | Err e => Err e end
  end.

Fixpoint insertField {A} (f : string * A) (l : list (string * A))
  : list (string * A) :=
  match l with
  | [] => [f]
  | g :: l' =>
      if String.leb f.1 g.1 then f :: l else g :: insertField f l'
  end.

(** The fields of an object in the order of their keys. *)
Definition sortFields {A} (l : list (string * A)) : list (string * A) :=
  foldr insertField [] l.

Definition field (f : string * Result string) : Result string :=
  match f.2 with
  | Ok v => Ok (quote f.1 +:+ ":" +:+ v)
  | Err e => Err e
  end.

Fixpoint Marshal (v : any) : Result string :=
  match v with
  | Nil => Ok "null"
  | Bool true => Ok "true"
  | Bool false => Ok "false"
  | Number lit =>
      if validNumber lit then Ok lit
      else Err (errors_New "json: invalid number literal")
  | Str s => Ok (quote s)
  | Slice l =>
      match sequence (map Marshal l) with
      | Ok elems => Ok ("[" +:+ join "," elems +:+ "]")
      | Err e => Err e
      end
  | Map m =>
      match sequence (map field (sortFields (map_to_list (Marshal <$> m)))) with
      | Ok fields => Ok ("{" +:+ join "," fields +:+ "}")
      | Err e => Err e
      end
  | Chan => Err (errors_New "json: unsupported type: chan int")
  end.

(** ** Decoding *)

Definition isSpace (c : ascii) : bool :=
  let n := N_of_ascii c in
  (n =? 32)%N || (n =? 9)%N || (n =? 10)%N || (n =? 13)%N.

Fixpoint skipSpace (s : string) : string :=
  match s with
  | String c s' => if isSpace c then skipSpace s' else s
  | EmptyString => s
  end.

Definition hexValue (c : ascii) : option N :=
  let n := N_of_ascii c in
  if (48 <=? n)%N && (n <=? 57)%N then Some (n - 48)%N
  else if (97 <=? n)%N && (n <=? 102)%N then Some (n - 87)%N
  else if (65 <=? n)%N && (n <=? 70)%N then Some (n - 55)%N
  else None.

Definition hex4 (a b c d : ascii) : option N :=
  match hexValue a, hexValue b, hexValue c, hexValue d with
  | Some a, Some b, Some c, Some d => Some (((a * 16 + b) * 16 + c) * 16 + d)%N
  | _, _, _, _ => None
  end.

(** The UTF-8 encoding of a code point. *)
Definition utf8 (cp : N) : string :=
  let b (n : N) := ascii_of_N n in
  let cont (n : N) := b (128 + n mod 64)%N in
  if (cp <? 128)%N then String (b cp) ""
  else if (cp <? 2048)%N then String (b (192 + cp / 64)%N) (String (cont cp) "")
  else if (cp <? 65536)%N then
    String (b (224 + cp / 4096)%N)
      (String (cont (cp / 64)%N) (String (cont cp) ""))
  else
    String (b (240 + cp / 262144)%N)
      (String (cont (cp / 4096)%N)
         (String (cont (cp / 64)%N) (String (cont cp) ""))).

Definition isSurrogate (cp : N) : bool := (55296 <=? cp)%N && (cp <? 57344)%N.

(** Four hexadecimal digits at the head of [s], as a number. *)
Definition scanHex4 (s : string) : option (N * string) :=
  match s with
  | String a (String b (String c (String d r))) =>
      match hex4 a b c d with Some n => Some (n, r) | None => None end
  | _ => None
  end.

(** The low half of a surrogate pair, written as a second escape, when [hi]
    is a high half. *)
Definition scanLowSurrogate (hi : N) (s : string) : option (N * string) :=
  match s with
  | String b (String u r) =>
      if (N_of_ascii b =? 92)%N && Ascii.eqb u "u" then
        match scanHex4 r with
        | Some (lo, r') =>
            if (55296 <=? hi)%N && (hi <? 56320)%N &&
               (56320 <=? lo)%N && (lo <? 57344)%N
            then Some (65536 + (hi - 55296) * 1024 + (lo - 56320), r')%N
            else None
        | None => None
        end
      else None
  | _ => None
  end.

Definition unescape (e : ascii) : option ascii :=
  let n := N_of_ascii e in
  if (n =? 34)%N || (n =? 92)%N || (n =? 47)%N then Some e
  else if Ascii.eqb e "b" then Some (ascii_of_N 8)
  else if Ascii.eqb e "f" then Some (ascii_of_N 12)
  else if Ascii.eqb e "n" then Some (ascii_of_N 10)
  else if Ascii.eqb e "r" then Some (ascii_of_N 13)
  else if Ascii.eqb e "t" then Some (ascii_of_N 9)
  else None.

(** The characters of a string literal after its opening quote, up to the
    closing quote, with escapes decoded; and what follows the literal.  A
    lone surrogate decodes to U+FFFD. *)
Fixpoint scanString (fuel : nat) (s : string) : option (string * string) :=
  match fuel with
  | O => None
  | S fuel =>
      let continue (decoded rest : string) :=
        match scanString fuel rest with
        | Some (t, r) => Some (decoded +:+ t, r)
        | None => None
        end in
      match s with
      | EmptyString => None
      | String c s' =>
          let n := N_of_ascii c in
          if (n =? 34)%N then Some ("", s')
          else if (n <? 32)%N then None
          else if (n =? 92)%N then
            match s' with
            | EmptyString => None
            | String e s'' =>
                if Ascii.eqb e "u" then
                  match scanHex4 s'' with
                  | None => None
                  | Some (hi, r) =>
                      match scanLowSurrogate hi r with
                      | Some (cp, r') => continue (utf8 cp) r'
                      | None =>
                          continue
                            (utf8 (if isSurrogate hi then 65533%N else hi)) r
                      end
                  end
                else
                  match unescape e with
                  | Some ch => continue (String ch "") s''
                  | None => None
                  end
            end
          else continue (String c "") s'
      end
  end.

Definition isQuote (c : ascii) : bool := (N_of_ascii c =? 34)%N.

(** One JSON value at the head of [s] (after blanks), and the rest.  The
    fuel bounds the number of values and separators still to be read; the
    length of the text is enough. *)
Fixpoint scanValue (fuel : nat) (s : string) : option (any * string) :=
  match fuel with
  | O => None
  | S fuel =>
      match skipSpace s with
      | String "n" (String "u" (String "l" (String "l" r))) => Some (Nil, r)
      | String "t" (String "r" (String "u" (String "e" r))) =>
          Some (Bool true, r)
      | String "f" (String "a" (String "l" (String "s" (String "e" r)))) =>
          Some (Bool false, r)
      | String "[" r =>
          match skipSpace r with
          | String "]" r' => Some (Slice [], r')
          | _ =>
              match scanElements fuel r with
              | Some (l, r') => Some (Slice l, r')
              | None => None
              end
          end
      | String "{" r =>
          match skipSpace r with
          | String "}" r' => Some (Map ∅, r')
          | _ =>
              match scanMembers fuel r ∅ with
              | Some (m, r') => Some (Map m, r')
              | None => None
              end
          end
      | String c r as s' =>
          if isQuote c then
            match scanString (String.length r) r with
            | Some (t, r') => Some (Str t, r')
            | None => None
            end
          else
            match scanNumber s' with
            | Some (lit, r') => Some (Number lit, r')
            | None => None
            end
      | EmptyString => None
      end
  end
with scanElements (fuel : nat) (s : string) : option (list any * string) :=
  match fuel with
  | O => None
  | S fuel =>
      match scanValue fuel s with
      | None => None
      | Some (v, r) =>
          match skipSpace r with
          | String "," r' =>
              match scanElements fuel r' with
              | Some (l, r'') => Some (v :: l, r'')
              | None => None
              end
          | String "]" r' => Some ([v], r')
          | _ => None
          end
      end
  end
with scanMembers (fuel : nat) (s : string) (m : gmap string any)
  : option (gmap string any * string) :=
  match fuel with
  | O => None
  | S fuel =>
      match skipSpace s with
      | String q r =>
          if isQuote q then
            match scanString (String.length r) r with
            | None => None
            | Some (key, r) =>
                match skipSpace r with
                | String ":" r =>
                    match scanValue fuel r with
                    | None => None
                    | Some (v, r) =>
                        let m := <[key := v]> m in
                        match skipSpace r with
                        | String "," r' => scanMembers fuel r' m
                        | String "}" r' => Some (m, r')
                        | _ => None
                        end
                    end
                | _ => None
                end
            end
          else None
      | EmptyString => None
      end
  end.

(** A whole text: one value, blanks around it. *)
Definition decode (data : string) : option any :=
  match scanValue (S (String.length data)) data with
  | Some (v, r) =>
      match skipSpace r with EmptyString => Some v | _ => None end
  | None => None
  end.

(** [json.Valid]. *)
Definition Valid (data : string) : bool :=
  match decode data with Some _ => true | None => false end.

Fixpoint digitsValue (s : string) (acc : Z) : option Z :=
  match s with
  | EmptyString => Some acc
  | String c s' =>
      if isDigit c
      then digitsValue s' (10 * acc + Z.of_N (N_of_ascii c - 48))%Z
      else None
  end.

(** The digits of a number literal as an integer, and the power of ten
    that scales it: the literal stands for [m * 10 ^ scale]. *)
Definition numberParts (lit : string) : option (Z * Z) :=
  let s := match lit with String "-" r => r | _ => lit end in
  let '(int, s) := digits s in
  let '(frac, s) :=
    match s with String "." r => digits r | _ => ("", s) end in
  let exp :=
    match s with
    | EmptyString => Some 0%Z
    | String _ (String "-" r) => Z.opp <$> digitsValue r 0
    | String _ (String "+" r) => digitsValue r 0
    | String _ r => digitsValue r 0
    end in
  match digitsValue (int +:+ frac) 0, exp with
  | Some m, Some e => Some (m, (e - Z.of_nat (String.length frac))%Z)
  | _, _ => None
  end.

(** The least magnitude that [strconv.ParseFloat(s, 64)] rounds to an
    infinity, which it reports as out of range: half-way between the
    largest [float64] and [2 ^ 1024]. *)
Definition float64Limit : Z := (2 ^ 1024 - 2 ^ 970)%Z.

(** Whether a number literal is within the range of [float64].  A scale
    above 400 exceeds the limit for every mantissa but zero, and a mantissa
    scaled down by all its digits is below one. *)
Definition inFloat64Range (lit : string) : bool :=
  match numberParts lit with
  | Some (m, scale) =>
      if (m =? 0)%Z then true
      else if (0 <=? scale)%Z then
        if (400 <? scale)%Z then false
        else (m * 10 ^ scale <? float64Limit)%Z
      else if (Z.of_nat (String.length lit) <=? - scale)%Z then true
      else (m <? float64Limit * 10 ^ (- scale))%Z
  | None => false
  end.

(** Whether every number of a decoded value is within the range of
    [float64], the type a number decodes to in an [any]. *)
Fixpoint fitsFloat64 (v : any) : bool :=
  match v with
  | Number lit => inFloat64Range lit
  | Slice l => forallb fitsFloat64 l
  | Map m => forallb snd (map_to_list (fitsFloat64 <$> m))
  | _ => true
  end.

(** [json.Unmarshal(data, &m)] for [m : map[string]any]: the text has to be
    valid JSON, an object or null, and its numbers have to fit [float64]. *)
Definition Unmarshal (data : string) : Result (gmap string any) :=
  match decode data with
  | None => Err (errors_New "invalid character or unexpected end of JSON input")
  | Some (Map m) =>
      if fitsFloat64 (Map m) then Ok m
      else
        Err (errors_New
               "json: cannot unmarshal number into Go value of type float64")
  | Some Nil => Ok ∅
  | Some _ =>
      Err (errors_New
             "json: cannot unmarshal into Go value of type map[string]interface {}")
  end.

#[export] Instance json : encoding_json :=
  {| json_Marshal := Marshal; json_Unmarshal := Unmarshal |}.

(** Test data is written with apostrophes in place of double quotes. *)
Fixpoint js (s : string) : string :=
  match s with
  | EmptyString => EmptyString
  | String c s' => String (if Ascii.eqb c "'" then "034"%char else c) (js s')
  end.

(** ** The typed uses of [encoding/json] in the REST adapter *)

(** A number literal read into a Go [int]: digits only, within 64 bits. *)
Definition intOfLiteral (lit : string) : option Z :=
  let n :=
    match lit with
    | EmptyString => None
    | String "-" EmptyString => None
    | String "-" r => Z.opp <$> digitsValue r 0
    | _ => digitsValue lit 0
    end in
  match n with
  | Some n =>
      if (- 2 ^ 63 <=? n)%Z && (n <? 2 ^ 63)%Z then Some n else None
  | None => None
  end.

Definition typeError {A} : Result A :=
  Err (errors_New "json: cannot unmarshal value into Go struct field").

Definition stringField (m : gmap string any) (key : string) : Result string :=
  match m !! key with
  | None | Some Nil => Ok ""
  | Some (Str s) => Ok s
  | Some _ => typeError
  end.

Definition decodeError (v : any) : Result APIError.t :=
  match v with
  | Nil => Ok (APIError.mk 0 "")
  | Map m =>
      let code :=
        match m !! "code" with
        | None | Some Nil => Ok 0%Z
        | Some (Number lit) =>
            match intOfLiteral lit with Some n => Ok n | None => typeError end
        | Some _ => typeError
        end in
      match code, stringField m "message" with
      | Ok code, Ok message => Ok (APIError.mk code message)
      | Err e, _ | _, Err e => Err e
      end
  | _ => typeError
  end.

(** [json.Unmarshal(body, &workerResp)], by the [json] tags of
    [workersAIResponse]. *)
Definition decodeResponse (body : string) : Result Http.workersAIResponse.t :=
  match decode body with
  | None => Err (errors_New "invalid character or unexpected end of JSON input")
  | Some Nil => Ok (Http.workersAIResponse.mk false "" [] [])
  | Some (Map m) =>
      let success :=
        match m !! "success" with
        | None | Some Nil => Ok false
        | Some (Bool b) => Ok b
        | Some _ => typeError
        end in
      let response :=
        match m !! "result" with
        | None | Some Nil => Ok ""
        | Some (Map r) => stringField r "response"
        | Some _ => typeError
        end in
      let errors :=
        match m !! "errors" with
        | None | Some Nil => Ok []
        | Some (Slice l) => sequence (map decodeError l)
        | Some _ => typeError
        end in
      let messages :=
        match m !! "messages" with
        | None | Some Nil => Ok []
        | Some (Slice l) => Ok l
        | Some _ => typeError
        end in
      match success, response, errors, messages with
      | Ok s, Ok r, Ok e, Ok ms => Ok (Http.workersAIResponse.mk s r e ms)
      | Err e, _, _, _ | _, Err e, _, _ | _, _, Err e, _ | _, _, _, Err e =>
          Err e
      end
  | Some _ => typeError
  end.

Definition encodeMessage (m : Http.workersAIMessage.t) : string :=
  "{" +:+ quote "role" +:+ ":" +:+ quote (Http.workersAIMessage.Role m) +:+
  "," +:+ quote "content" +:+ ":" +:+
  quote (Http.workersAIMessage.Content m) +:+ "}".

(** [json.Marshal(req)]: every field of [workersAIRequest] is [omitempty]. *)
Definition encodeRequest (req : Http.workersAIRequest.t) : Result string :=
  let messages :=
    match Http.workersAIRequest.Messages req with
    | [] => []
    | ms => [quote "messages" +:+ ":[" +:+ join "," (map encodeMessage ms) +:+ "]"]
    end in
  let prompt :=
    if String.eqb (Http.workersAIRequest.Prompt req) "" then []
    else [quote "prompt" +:+ ":" +:+ quote (Http.workersAIRequest.Prompt req)] in
  let stream :=
    if Http.workersAIRequest.Stream req then [quote "stream" +:+ ":true"]
    else [] in
  Ok ("{" +:+ join "," (messages ++ prompt ++ stream) +:+ "}").

(** ** Scripted collaborators *)

(** An HTTP client that is the server's reply as a function of the request. *)
#[export] Instance http : Http.net_http :=
  {| Http.http_Client := Http.Request.t → Result Http.Response.t;
     Http.http_NewRequestWithContext method url body :=
       Ok (Http.Request.mk method url body ∅);
     Http.client_Do c req := c req;
     Http.json_Marshal_workersAIRequest := encodeRequest;
     Http.json_Unmarshal_workersAIResponse := decodeResponse |}.

(** A client whose chat call is the provider's reply as a function of the
    model and the wire messages; schemas are kept as decoded objects. *)
#[export] Instance client : Client.workers_ai :=
  {| Client.FunctionParameters := gmap string any;
     Client.FunctionParameters_zero := ∅;
     Client.json_Unmarshal_FunctionParameters := Unmarshal;
     Client.client_Client :=
       string → list Client.Message → Result Client.Response.t;
     Client.ChatWithTools c model messages _ := c model messages |}.

End GoJSON.

(** * Definitions in the words of the specification *)

(** The family names [supportsChatFormat] looks for. *)
Definition chatFamilies : list string := ["llama"; "mistral"; "qwen"; "gemma"].

(** The flattened prompt in the words of the specification: one line
    "<RoleLabel>: <text>" with a line feed per message; tool turns (and
    roles without a label) and messages with empty text give nothing. *)
Definition promptLabel (role : Role) : option string :=
  if decide (role = RoleSystem) then Some "System"
  else if decide (role = RoleUser) then Some "User"
  else if decide (role = RoleModel) then Some "Assistant"
  else None.

Definition promptLine (msg : Message.t) : string :=
  let text := Http.concatenateTextParts (Message.Content msg) in
  match promptLabel (Message.Role msg) with
  | Some label => if decide (text = "") then "" else label +:+ ": " +:+ text +:+ LF
  | None => ""
  end.

Definition flattenedPrompt (messages : list Message.t) : string :=
  foldr String.append "" (map promptLine messages).

(** The tool requests and the tool responses among the parts of a message,
    in the order of the parts. *)
Definition toolRequests (parts : list Part) : list ToolRequest.t :=
  omap (λ p, match p with ToolRequestPart tr => Some tr | _ => None end) parts.

Definition toolResponses (parts : list Part) : list ToolResponse.t :=
  omap (λ p, match p with ToolResponsePart tr => Some tr | _ => None end) parts.

(** The wire tool call that mirrors a tool request: id = ref, type
    "function", the request's name, and the given arguments text. *)
Definition toolCallOf (tr : ToolRequest.t) (arguments : string)
  : Client.ToolCall.t :=
  Client.ToolCall.mk (ToolRequest.Ref tr) "function"
    (Client.FunctionToCall.mk (ToolRequest.Name tr) arguments).

(** The wire tool result for a tool response: toolCallID = ref. *)
Definition toolResultOf (tr : ToolResponse.t) (content : string)
  : Client.Message :=
  Client.ToolMessage "tool" content (ToolResponse.Ref tr).

(** The normalization rule for one argument value: an object with a member
    named "value" stands for that member, anything else for itself. *)
Definition normalizedValue (val : any) : any :=
  match val with
  | Map argObject => default val (argObject !! "value")
  | _ => val
  end.

(** The canonical part decoded from a wire tool call whose arguments decode
    to [rawArgs]. *)
Definition toolRequestPartOf (call : Client.ToolCall.t)
    (rawArgs : gmap string any) : Part :=
  ToolRequestPart
    (ToolRequest.mk (Client.ToolCall.ID call)
       (Client.FunctionToCall.Name (Client.ToolCall.Function call))
       (Map (normalizedValue <$> rawArgs))).

(** The errors of the two adapters' conversions. *)
Definition toolInputError (name : string) (err : error) : error :=
  errors_Wrapf err "failed to marshal tool input for %s" [OpString name].

Definition toolOutputError (name : string) (err : error) : error :=
  errors_Wrapf err "failed to marshal tool output for %s" [OpString name].

Definition toolArgumentsError (name : string) (err : error) : error :=
  fmt_Errorf "failed to unmarshal tool arguments for '%s': %w"
    [OpString name; OpError err].

(** [f] on every element from left to right, stopping at the first error. *)
Fixpoint mapR {A B} (f : A → Result B) (l : list A) : Result (list B) :=
  match l with
  | [] => Ok []
  | a :: l' =>
      match f a with
      | Err e => Err e
      | Ok b =>
          match mapR f l' with
          | Err e => Err e
          | Ok bs => Ok (b :: bs)
          end
      end
  end.

(** A result list after the messages already emitted. *)
Definition prepend {A} (acc : list A) (r : Result (list A)) : Result (list A) :=
  match r with
  | Ok l => Ok (acc ++ l)
  | Err e => Err e
  end.

(** One step of each conversion loop of the client-library adapter. *)
Definition toolCallR `{encoding_json} (tr : ToolRequest.t)
  : Result Client.ToolCall.t :=
  match json_Marshal (ToolRequest.Input tr) with
  | Ok arguments => Ok (toolCallOf tr arguments)
  | Err err => Err (toolInputError (ToolRequest.Name tr) err)
  end.

Definition toolResultR `{encoding_json} (tr : ToolResponse.t)
  : Result Client.Message :=
  match json_Marshal (ToolResponse.Output tr) with
  | Ok content => Ok (toolResultOf tr content)
  | Err err => Err (toolOutputError (ToolResponse.Name tr) err)
  end.

Definition toolRequestPartR `{encoding_json} (call : Client.ToolCall.t)
  : Result Part :=
  let fn := Client.ToolCall.Function call in
  match json_Unmarshal (Client.FunctionToCall.Arguments fn) with
  | Ok rawArgs => Ok (toolRequestPartOf call rawArgs)
  | Err err => Err (toolArgumentsError (Client.FunctionToCall.Name fn) err)
  end.

(** The wire messages of one canonical message, by role. *)
Definition wireOf `{encoding_json} (msg : Message.t)
  : Result (list Client.Message) :=
  let role := Message.Role msg in
  let parts := Message.Content msg in
  if decide (role = RoleTool) then mapR toolResultR (toolResponses parts)
  else if decide (role = RoleModel) then
    match mapR toolCallR (toolRequests parts) with
    | Err e => Err e
    | Ok [] =>
        Ok (if decide (Message.textOf parts = "") then []
            else [Client.ChatMessage "assistant" (Message.textOf parts)])
    | Ok toolCalls => Ok [Client.ResponseMessage "assistant" toolCalls (Some "")]
    end
  else if decide (role = RoleUser) then
    Ok [Client.ChatMessage "user" (Message.textOf parts)]
  else if decide (role = RoleSystem) then
    Ok [Client.ChatMessage "system" (Message.textOf parts)]
  else Ok [].

(** A part that is neither text nor a tool request nor a tool response,
    and a message without such parts. *)
Definition isOtherPart (part : Part) : bool :=
  negb (IsText part || IsToolRequest part || IsToolResponse part).

Definition withoutOtherParts (msg : Message.t) : Message.t :=
  Message.mk (Message.Role msg)
    (List.filter (λ part, negb (isOtherPart part)) (Message.Content msg)).

(** The wire messages that are no plain chat messages: the tool results and
    the assistant messages with tool calls. *)
Definition isChatMessage (m : Client.Message) : bool :=
  match m with Client.ChatMessage _ _ => true | _ => false end.

Definition toolWire (wire : list Client.Message) : list Client.Message :=
  List.filter (λ m, negb (isChatMessage m)) wire.

(** Two results of the encoder that differ at most in their chat messages:
    the same error, or the same tool results and assistant messages with tool
    calls, in the same order. *)
Definition sameToolWire (r r' : Result (list Client.Message)) : Prop :=
  match r, r' with
  | Ok w, Ok w' => toolWire w = toolWire w'
  | Err e, Err e' => e = e'
  | _, _ => False
  end.

(** * Properties *)

(** ** Substrings *)

Lemma append_cons (c : ascii) (s t : string) :
  String c s +:+ t = String c (s +:+ t).
Proof. reflexivity. Qed.

Lemma append_nil_l (t : string) : "" +:+ t = t.
Proof. reflexivity. Qed.

Lemma prefix_app (p s : string) :
  String.prefix p s = true ↔ ∃ post, s = p +:+ post.
Proof.
  revert s. induction p as [|c p IH]; intros [|d s].
  - split; [intros _; by exists "" | done].
  - split; [intros _; by exists (String d s) | done].
  - split; [done | intros [post Hpost]; discriminate].
  - setoid_rewrite append_cons. cbn [String.prefix].
    destruct (Ascii.ascii_dec c d) as [->|Hne].
    + rewrite IH. split; intros [post Hpost]; exists post; congruence.
    + split; [done | intros [post Hpost]; congruence].
Qed.

(** [strings_Contains s substr] holds exactly when [substr] occurs in [s],
    character for character. *)
Lemma strings_Contains_spec (s substr : string) :
  strings_Contains s substr = true ↔
  ∃ pre post, s = pre +:+ substr +:+ post.
Proof.
  induction s as [|c s IH]; cbn [strings_Contains].
  - rewrite orb_false_r, prefix_app. split.
    + intros [post Hpost]. by exists "", post.
    + intros [pre [post Hs]]. destruct pre; [by exists post | discriminate].
  - rewrite orb_true_iff, prefix_app, IH. split.
    + intros [[post Hpost] | [pre [post Hs]]].
      * by exists "", post.
      * exists (String c pre), post. rewrite append_cons. by rewrite Hs.
    + intros [pre [post Hs]]. destruct pre as [|d pre].
      * left. by exists post.
      * right. exists pre, post. rewrite append_cons in Hs. congruence.
Qed.

(** ** Role mapping *)

(** C9, as amended: the client-library adapter sends user, model, system and
    tool to "user", "assistant", "system" and "tool" and every other role to
    "user"; the REST adapter has no case for the tool role, which falls to
    the default "user" there like every role it does not know. *)
Theorem convertRole_mapping :
  (Client.convertRole RoleUser = "user" ∧
   Client.convertRole RoleModel = "assistant" ∧
   Client.convertRole RoleSystem = "system" ∧
   Client.convertRole RoleTool = "tool" ∧
   ∀ role : Role,
     role ≠ RoleUser → role ≠ RoleModel → role ≠ RoleSystem →
     role ≠ RoleTool → Client.convertRole role = "user") ∧
  (Http.convertRole RoleUser = "user" ∧
   Http.convertRole RoleModel = "assistant" ∧
   Http.convertRole RoleSystem = "system" ∧
   ∀ role : Role,
     role ≠ RoleUser → role ≠ RoleModel → role ≠ RoleSystem →
     Http.convertRole role = "user").
Proof.
  repeat split; try reflexivity.
  - intros role Hu Hm Hs Ht. unfold Client.convertRole.
    apply String.eqb_neq in Hu, Hm, Hs, Ht. by rewrite Hu, Hm, Hs, Ht.
  - intros role Hu Hm Hs. unfold Http.convertRole.
    apply String.eqb_neq in Hu, Hm, Hs. by rewrite Hu, Hm, Hs.
Qed.

(** C9 as stated fails on the REST adapter: its [convertRole] does not send
    the tool role to "tool". *)
Lemma convertRole_tool_counterexample :
  Http.convertRole RoleTool = "user" ∧ Http.convertRole RoleTool ≠ "tool".
Proof. split; [reflexivity | discriminate]. Qed.

(** ** Encoding dispatch of the REST adapter *)

Lemma buildPrompt_flattenedPrompt (messages : list Message.t) :
  Http.buildPrompt messages = flattenedPrompt messages.
Proof.
  unfold flattenedPrompt.
  induction messages as [|msg messages IH]; [reflexivity|].
  cbn [Http.buildPrompt map foldr]. rewrite IH. f_equal.
  unfold promptLine, promptLabel.
  destruct (String.eqb_spec (Http.concatenateTextParts (Message.Content msg)) "")
    as [->|Hne]; cbn [negb].
  - repeat case_decide; done.
  - destruct (String.eqb_spec (Message.Role msg) RoleSystem);
    destruct (String.eqb_spec (Message.Role msg) RoleUser);
    destruct (String.eqb_spec (Message.Role msg) RoleModel);
    repeat case_decide; try done.
Qed.

(** C7, as amended: the structured-chat encoding is chosen exactly when the
    identifier contains one of llama, mistral, qwen, gemma as a
    case-sensitive substring; for every other identifier the request carries
    no messages and the whole history as one prompt of lines
    "System: <text>", "User: <text>", "Assistant: <text>", each ended by a
    line feed, without tool turns and messages whose text is empty. *)
Theorem supportsChatFormat_dispatch
    (model : string) (input : ModelRequest.t) (cb : bool) :
  (Http.supportsChatFormat model = true ↔
   ∃ family, family ∈ chatFamilies ∧
     ∃ pre post, model = pre +:+ family +:+ post) ∧
  Http.buildRequest model input cb =
    (if Http.supportsChatFormat model
     then Http.workersAIRequest.mk
            (Http.chatMessages (ModelRequest.Messages input) []) "" cb
     else Http.workersAIRequest.mk []
            (flattenedPrompt (ModelRequest.Messages input)) cb).
Proof.
  split.
  - unfold Http.supportsChatFormat, chatFamilies.
    rewrite !orb_true_iff, !strings_Contains_spec. split.
    + intros [[[Hf|Hf]|Hf]|Hf]; eexists; (split; [|exact Hf]);
        apply list_elem_of_In; simpl; tauto.
    + intros [family [Hin Hf]].
      rewrite !elem_of_cons, elem_of_nil in Hin.
      destruct Hin as [->|[->|[->|[->|[]]]]]; tauto.
  - unfold Http.buildRequest. rewrite buildPrompt_flattenedPrompt.
    by destruct (Http.supportsChatFormat model).
Qed.

(** C7 as stated fails: an identifier that matches a family name only up to
    case is encoded as a flattened prompt. *)
Lemma supportsChatFormat_case_counterexample :
  let model := "@hf/Meta-Llama/Llama-2-7b-chat" in
  let input := ModelRequest.mk [Message.mk RoleUser [TextPart "Hi"]] [] in
  strings_Contains (strings_ToLower model) "llama" = true ∧
  Http.supportsChatFormat model = false ∧
  Http.buildRequest model input false =
    Http.workersAIRequest.mk [] ("User: Hi" +:+ LF) false.
Proof. repeat split; reflexivity. Qed.

(** ** Messages without text *)

(** The chat branch of the REST adapter emits no message with empty
    content, and a message without text leaves no trace. *)
Lemma chatMessages_content_nonempty
    (msgs : list Message.t) (messages : list Http.workersAIMessage.t) :
  Forall (λ m, Http.workersAIMessage.Content m ≠ "") messages →
  Forall (λ m, Http.workersAIMessage.Content m ≠ "")
    (Http.chatMessages msgs messages).
Proof.
  revert messages. induction msgs as [|msg msgs IH]; intros messages Hacc;
    cbn [Http.chatMessages]; [done|].
  destruct (String.eqb_spec (Http.concatenateTextParts (Message.Content msg)) "")
    as [Heq|Hne]; cbn [negb]; apply IH; [done|].
  apply Forall_app. split; [done|]. by constructor.
Qed.

Lemma chatMessages_drops_empty
    (pre post : list Message.t) (msg : Message.t)
    (messages : list Http.workersAIMessage.t) :
  Http.concatenateTextParts (Message.Content msg) = "" →
  Http.chatMessages (pre ++ msg :: post) messages =
  Http.chatMessages (pre ++ post) messages.
Proof.
  intros Hempty. revert messages.
  induction pre as [|m pre IH]; intros messages; cbn [app Http.chatMessages].
  - by rewrite Hempty.
  - by rewrite !IH.
Qed.

(** C8 on the client-library adapter: a user or system message whose text
    is empty is still emitted, as a chat message with empty content. *)
Theorem toClientMessages_keeps_empty_message `{encoding_json} :
  Client.toClientMessages [Message.mk RoleUser [TextPart ""]] =
    Ok [Client.ChatMessage "user" ""] ∧
  Client.toClientMessages [Message.mk RoleSystem []] =
    Ok [Client.ChatMessage "system" ""] ∧
  Client.toClientMessages [Message.mk RoleModel [TextPart ""]] = Ok [].
Proof. repeat split; reflexivity. Qed.

(** ** Loops with an early return *)

Section mapR.
Context {A B : Type} (f : A → Result B).

Lemma mapR_app (l1 l2 : list A) :
  mapR f (l1 ++ l2) =
  match mapR f l1 with
  | Err e => Err e
  | Ok bs => prepend bs (mapR f l2)
  end.
Proof.
  induction l1 as [|a l1 IH]; cbn [app mapR].
  - by destruct (mapR f l2).
  - destruct (f a); [|done]. rewrite IH.
    destruct (mapR f l1); [|done]. by destruct (mapR f l2).
Qed.

Lemma mapR_Ok (l : list A) (bs : list B) :
  mapR f l = Ok bs ↔ Forall2 (λ a b, f a = Ok b) l bs.
Proof.
  revert bs. induction l as [|a l IH]; intros bs; cbn [mapR].
  - split; [intros [= <-]; constructor | by inversion 1].
  - split.
    + destruct (f a) as [b|] eqn:Hb; [|done].
      destruct (mapR f l) as [bs'|] eqn:Hbs; [|done].
      intros [= <-]. constructor; [done | by apply IH].
    + inversion 1 as [|? b ? bs' Hb Hbs]; subst. rewrite Hb.
      apply IH in Hbs. by rewrite Hbs.
Qed.

Lemma mapR_Err (l : list A) (e : error) :
  mapR f l = Err e ↔
  ∃ good bad rest,
    l = good ++ bad :: rest ∧
    Forall (λ a, isOk (f a) = true) good ∧ f bad = Err e.
Proof.
  induction l as [|a l IH]; cbn [mapR].
  - split; [done | intros (good & bad & rest & Hl & _); by destruct good].
  - split.
    + destruct (f a) as [b|e'] eqn:Hb.
      * destruct (mapR f l) as [bs|e'] eqn:Hbs; [done|].
        intros [= ->]. destruct (proj1 IH eq_refl) as (good & bad & rest & -> & Hgood & Hbad).
        exists (a :: good), bad, rest. repeat split; [|done].
        constructor; [by rewrite Hb | done].
      * intros [= ->]. by exists [], a, l.
    + intros (good & bad & rest & Hl & Hgood & Hbad).
      destruct good as [|g good]; simplify_eq/=.
      * by rewrite Hbad.
      * inversion Hgood as [|? ? Hg Hgood']; subst.
        destruct (f g); [|done].
        rewrite (proj2 IH); [done|]. by exists good, bad, rest.
Qed.

Lemma mapR_length (l : list A) (bs : list B) :
  mapR f l = Ok bs → length bs = length l.
Proof. rewrite mapR_Ok. intros Hall. symmetry. by eapply Forall2_length. Qed.

End mapR.

Lemma prepend_nil {A} (r : Result (list A)) : prepend [] r = r.
Proof. by destruct r. Qed.

Lemma prepend_prepend {A} (acc l : list A) (r : Result (list A)) :
  prepend acc (prepend l r) = prepend (acc ++ l) r.
Proof. destruct r; [|done]. cbn. by rewrite app_assoc. Qed.

(** ** The loops of the client-library adapter *)

Section client_loops.
Context `{encoding_json}.

Lemma simplifyLoop_fmap (rawArgs : gmap string any) :
  Client.simplifyLoop rawArgs = normalizedValue <$> rawArgs.
Proof.
  unfold Client.simplifyLoop.
  apply (map_fold_weak_ind (λ r (m : gmap string any), r = normalizedValue <$> m)).
  - by rewrite fmap_empty.
  - intros key val m r _ ->. rewrite fmap_insert.
    destruct val as [| | | | |argObject|]; try done.
    cbn [normalizedValue]. by destruct (argObject !! "value").
Qed.

Lemma toGenkitToolRequestParts_from_mapR
    (calls : list Client.ToolCall.t) (acc : list Part) :
  Client.toGenkitToolRequestParts_from calls acc =
  prepend acc (mapR toolRequestPartR calls).
Proof.
  revert acc. induction calls as [|call calls IH]; intros acc;
    cbn [Client.toGenkitToolRequestParts_from mapR prepend].
  - by rewrite app_nil_r.
  - unfold toolRequestPartR at 1.
    destruct (json_Unmarshal _) as [rawArgs|err]; [|done].
    rewrite IH, simplifyLoop_fmap. unfold toolRequestPartOf.
    destruct (mapR toolRequestPartR calls); [|done].
    cbn. by rewrite <- app_assoc.
Qed.

Lemma toGenkitToolRequestParts_mapR (calls : list Client.ToolCall.t) :
  Client.toGenkitToolRequestParts calls = mapR toolRequestPartR calls.
Proof.
  unfold Client.toGenkitToolRequestParts.
  by rewrite toGenkitToolRequestParts_from_mapR, prepend_nil.
Qed.

Lemma modelToolCalls_mapR
    (parts : list Part) (acc : list Client.ToolCall.t) :
  Client.modelToolCalls parts acc =
  prepend acc (mapR toolCallR (toolRequests parts)).
Proof.
  revert acc. induction parts as [|part parts IH]; intros acc.
  - cbn. by rewrite app_nil_r.
  - destruct part as [text|ct text|tr|tr];
      cbn [Client.modelToolCalls toolRequests omap list_omap]; try apply IH.
    fold (toolRequests parts). cbn [mapR]. unfold toolCallR at 1.
    destruct (json_Marshal _) as [arguments|err]; [|done].
    rewrite IH. unfold toolCallOf.
    destruct (mapR toolCallR (toolRequests parts)); [|done].
    cbn. by rewrite <- app_assoc.
Qed.

Lemma toolMessages_mapR (parts : list Part) (acc : list Client.Message) :
  Client.toolMessages parts acc =
  prepend acc (mapR toolResultR (toolResponses parts)).
Proof.
  revert acc. induction parts as [|part parts IH]; intros acc.
  - cbn. by rewrite app_nil_r.
  - destruct part as [text|ct text|tr|tr];
      cbn [Client.toolMessages toolResponses omap list_omap]; try apply IH.
    fold (toolResponses parts). cbn [mapR]. unfold toolResultR at 1.
    destruct (json_Marshal _) as [content|err]; [|done].
    rewrite IH. unfold toolResultOf.
    destruct (mapR toolResultR (toolResponses parts)); [|done].
    cbn. by rewrite <- app_assoc.
Qed.

Lemma toClientMessage_wireOf (msg : Message.t) (acc : list Client.Message) :
  Client.toClientMessage msg acc = prepend acc (wireOf msg).
Proof.
  unfold Client.toClientMessage, wireOf.
  destruct (String.eqb_spec (Message.Role msg) RoleTool) as [Ht|Ht].
  { rewrite decide_True by done. apply toolMessages_mapR. }
  rewrite decide_False by done.
  destruct (String.eqb_spec (Message.Role msg) RoleModel) as [Hm|Hm].
  { rewrite decide_True by done. rewrite modelToolCalls_mapR, prepend_nil.
    destruct (mapR toolCallR _) as [[|call calls]|err]; cbn; [|done..].
    unfold Message.Text.
    destruct (String.eqb_spec (Message.textOf (Message.Content msg)) "")
      as [Heq|Hne]; cbn.
    - rewrite decide_True by done. by rewrite app_nil_r.
    - by rewrite decide_False by done. }
  rewrite decide_False by done.
  destruct (String.eqb_spec (Message.Role msg) RoleUser) as [Hu|Hu].
  { rewrite decide_True by done. cbn. by rewrite Hu. }
  rewrite decide_False by done.
  destruct (String.eqb_spec (Message.Role msg) RoleSystem) as [Hs|Hs].
  { rewrite decide_True by done. cbn. by rewrite Hs. }
  rewrite decide_False by done. cbn. by rewrite app_nil_r.
Qed.

Lemma toClientMessages_from_acc
    (messages : list Message.t) (acc : list Client.Message) :
  Client.toClientMessages_from messages acc =
  prepend acc (Client.toClientMessages messages).
Proof.
  unfold Client.toClientMessages. revert acc.
  induction messages as [|msg messages IH]; intros acc;
    cbn [Client.toClientMessages_from].
  - cbn. by rewrite app_nil_r.
  - rewrite !toClientMessage_wireOf, prepend_nil.
    destruct (wireOf msg) as [w|err]; cbn [prepend]; [|done].
    rewrite IH, (IH w). by rewrite prepend_prepend.
Qed.

Lemma toClientMessages_cons (msg : Message.t) (messages : list Message.t) :
  Client.toClientMessages (msg :: messages) =
  match wireOf msg with
  | Err e => Err e
  | Ok w => prepend w (Client.toClientMessages messages)
  end.
Proof.
  unfold Client.toClientMessages at 1. cbn [Client.toClientMessages_from].
  rewrite toClientMessage_wireOf, prepend_nil.
  destruct (wireOf msg); [|done]. apply toClientMessages_from_acc.
Qed.

Lemma toClientMessages_nil : Client.toClientMessages [] = Ok [].
Proof. reflexivity. Qed.

Lemma toClientMessages_app (pre post : list Message.t) :
  Client.toClientMessages (pre ++ post) =
  match Client.toClientMessages pre with
  | Err e => Err e
  | Ok w => prepend w (Client.toClientMessages post)
  end.
Proof.
  induction pre as [|msg pre IH]; cbn [app].
  - by rewrite toClientMessages_nil, prepend_nil.
  - rewrite !toClientMessages_cons. destruct (wireOf msg) as [w|]; [|done].
    rewrite IH. destruct (Client.toClientMessages pre); [|done].
    cbn [prepend]. by rewrite prepend_prepend.
Qed.

(** A message between two encoded stretches of history. *)
Lemma toClientMessages_middle
    (pre post : list Message.t) (msg : Message.t)
    (wpre wpost : list Client.Message) :
  Client.toClientMessages pre = Ok wpre →
  Client.toClientMessages post = Ok wpost →
  Client.toClientMessages (pre ++ msg :: post) =
  match wireOf msg with
  | Err e => Err e
  | Ok w => Ok (wpre ++ w ++ wpost)
  end.
Proof.
  intros Hpre Hpost.
  rewrite toClientMessages_app, Hpre, toClientMessages_cons, Hpost.
  by destruct (wireOf msg).
Qed.

End client_loops.

(** ** Argument normalization *)

(** C2: when the arguments text of a tool call decodes to [rawArgs], the
    normalized map has, for every key, the member "value" of the raw value
    when that is an object with such a member, and the raw value itself
    otherwise; a key is present after normalization exactly when it was
    before.  [toGenkitToolRequestParts] stores this same map as the input of
    the part. *)
Theorem simplifyArguments_per_key `{encoding_json}
    (argsJSON : string) (rawArgs : gmap string any) :
  json_Unmarshal argsJSON = Ok rawArgs →
  ∃ simplifiedArgs : gmap string any,
    Client.simplifyArguments argsJSON = Ok simplifiedArgs ∧
    (∀ id type name,
       Client.toGenkitToolRequestParts
         [Client.ToolCall.mk id type (Client.FunctionToCall.mk name argsJSON)] =
       Ok [ToolRequestPart (ToolRequest.mk id name (Map simplifiedArgs))]) ∧
    ∀ key : string,
      match rawArgs !! key with
      | None => simplifiedArgs !! key = None
      | Some (Map argObject) =>
          match argObject !! "value" with
          | Some value => simplifiedArgs !! key = Some value
          | None => simplifiedArgs !! key = Some (Map argObject)
          end
      | Some val => simplifiedArgs !! key = Some val
      end.
Proof.
  intros Hraw. exists (normalizedValue <$> rawArgs). repeat split.
  - unfold Client.simplifyArguments. by rewrite Hraw, simplifyLoop_fmap.
  - intros id type name. rewrite toGenkitToolRequestParts_mapR.
    cbn [mapR]. unfold toolRequestPartR. cbn. by rewrite Hraw.
  - intros key. rewrite lookup_fmap.
    destruct (rawArgs !! key) as [[| | | | |argObject|]|]; try done.
    cbn. by destruct (argObject !! "value").
Qed.

(** The test "should handle a mix of simple and verbose formats in a single
    call", with one more verbose key. *)
Lemma simplifyArguments_per_key_witness :
  let argsJSON :=
    GoJSON.js "{'location': 'Eindhoven, NL', 'unit': {'type': 'string', 'value': 'celsius'}, 'days': {'type': 'integer', 'value': 2}}" in
  let rawArgs : gmap string any :=
    <["location" := Str "Eindhoven, NL"]>
      (<["unit" := Map (<["type" := Str "string"]> (<["value" := Str "celsius"]> ∅))]>
         (<["days" := Map (<["type" := Str "integer"]> (<["value" := Number "2"]> ∅))]> ∅)) in
  GoJSON.Unmarshal argsJSON = Ok rawArgs ∧
  ∃ simplifiedArgs : gmap string any,
    @Client.simplifyArguments GoJSON.json argsJSON = Ok simplifiedArgs ∧
    simplifiedArgs !! "location" = Some (Str "Eindhoven, NL") ∧
    simplifiedArgs !! "unit" = Some (Str "celsius") ∧
    simplifiedArgs !! "days" = Some (Number "2") ∧
    simplifiedArgs !! "type" = None.
Proof.
  intros argsJSON rawArgs.
  assert (Hraw : GoJSON.Unmarshal argsJSON = Ok rawArgs)
    by (vm_compute; reflexivity).
  split; [exact Hraw|].
  destruct (@simplifyArguments_per_key GoJSON.json argsJSON rawArgs Hraw)
    as (simplifiedArgs & Hsimplified & _ & Hkeys).
  exists simplifiedArgs. split; [exact Hsimplified|].
  repeat split.
  - exact (Hkeys "location").
  - exact (Hkeys "unit").
  - exact (Hkeys "days").
  - exact (Hkeys "type").
Defined.

(** ** Decoding tool calls *)

(** C5, as amended: [toGenkitToolRequestParts] fails exactly when
    [json.Unmarshal] fails to decode the arguments text of some call into a
    [map[string]any], whatever makes it fail; the error names the function
    of the first such call and wraps the decoder's error; a failure carries
    no part list, and a success has one part per call, in order.  An empty
    list of calls gives an empty list of parts and no error. *)
Theorem toGenkitToolRequestParts_fails_closed `{encoding_json} :
  Client.toGenkitToolRequestParts [] = Ok [] ∧
  (∀ calls : list Client.ToolCall.t,
     isOk (Client.toGenkitToolRequestParts calls) = false ↔
     Exists
       (λ call,
          isOk (json_Unmarshal
                  (Client.FunctionToCall.Arguments
                     (Client.ToolCall.Function call))) = false)
       calls) ∧
  (∀ (good rest : list Client.ToolCall.t) (bad : Client.ToolCall.t) err,
     Forall
       (λ call,
          isOk (json_Unmarshal
                  (Client.FunctionToCall.Arguments
                     (Client.ToolCall.Function call))) = true)
       good →
     json_Unmarshal
       (Client.FunctionToCall.Arguments (Client.ToolCall.Function bad)) =
       Err err →
     Client.toGenkitToolRequestParts (good ++ bad :: rest) =
     Err (toolArgumentsError
            (Client.FunctionToCall.Name (Client.ToolCall.Function bad)) err)) ∧
  (∀ (calls : list Client.ToolCall.t) (parts : list Part),
     Client.toGenkitToolRequestParts calls = Ok parts →
     Forall2
       (λ call part,
          ∃ rawArgs,
            json_Unmarshal
              (Client.FunctionToCall.Arguments
                 (Client.ToolCall.Function call)) = Ok rawArgs ∧
            part = toolRequestPartOf call rawArgs)
       calls parts).
Proof.
  assert (Hstep : ∀ call : Client.ToolCall.t,
            isOk (toolRequestPartR call) =
            isOk (json_Unmarshal
                    (Client.FunctionToCall.Arguments
                       (Client.ToolCall.Function call)))).
  { intros call. unfold toolRequestPartR. by destruct (json_Unmarshal _). }
  split; [reflexivity|]. split; [|split].
  - intros calls. rewrite toGenkitToolRequestParts_mapR. split.
    + destruct (mapR toolRequestPartR calls) as [|e] eqn:Hcalls; [done|].
      intros _. apply mapR_Err in Hcalls
        as (good & bad & rest & -> & _ & Hbad).
      apply Exists_app. right. constructor. by rewrite <- Hstep, Hbad.
    + intros Hex. destruct (mapR toolRequestPartR calls) as [parts|] eqn:Hcalls;
        [|done].
      apply mapR_Ok in Hcalls. exfalso.
      induction Hcalls as [|call part calls parts Hcall _ IH].
      * by inversion Hex.
      * inversion Hex as [? ? Hhere|? ? Hlater]; subst; [|by apply IH].
        by rewrite <- Hstep, Hcall in Hhere.
  - intros good rest bad err Hgood Hbad.
    rewrite toGenkitToolRequestParts_mapR. apply mapR_Err.
    exists good, bad, rest. repeat split.
    + eapply Forall_impl; [exact Hgood|]. intros call Hcall.
      by rewrite Hstep.
    + unfold toolRequestPartR. by rewrite Hbad.
  - intros calls parts. rewrite toGenkitToolRequestParts_mapR, mapR_Ok.
    intros Hall. eapply Forall2_impl; [exact Hall|].
    intros call part. unfold toolRequestPartR.
    destruct (json_Unmarshal _) as [rawArgs|]; [|done].
    intros [= <-]. by exists rawArgs.
Qed.

(** The tests "should correctly parse simple argument format" (as the
    decodable call) and "should return an error for malformed arguments
    JSON" (as the failing one). *)
Lemma toGenkitToolRequestParts_fails_closed_witness :
  let good :=
    Client.ToolCall.mk "call_simple_123" "function"
      (Client.FunctionToCall.mk "get_weather"
         (GoJSON.js "{'location': 'Eindhoven, NL', 'unit': 'celsius'}")) in
  let bad :=
    Client.ToolCall.mk "call_2" "function"
      (Client.FunctionToCall.mk "get_forecast"
         (GoJSON.js "{'location': 'Eindhoven, NL',")) in
  ∃ err,
    @Client.toGenkitToolRequestParts GoJSON.json [good; bad; good] =
      Err (toolArgumentsError "get_forecast" err) ∧
    isOk (@Client.toGenkitToolRequestParts GoJSON.json [good; good]) = true.
Proof.
  intros good bad.
  destruct (@toGenkitToolRequestParts_fails_closed GoJSON.json)
    as (_ & Hiff & Hfirst & _).
  eexists. split.
  - apply (Hfirst [good] [good] bad).
    + constructor; [vm_compute; reflexivity | constructor].
    + vm_compute. reflexivity.
  - destruct (isOk (@Client.toGenkitToolRequestParts GoJSON.json [good; good]))
      eqn:Hok;
      [reflexivity|].
    apply Hiff in Hok. exfalso.
    repeat (apply Exists_cons in Hok as [Hok|Hok]; [by vm_compute in Hok|]).
    by apply Exists_nil in Hok.
Defined.

(** [json.Unmarshal] into a [map[string]any] fails on every text that is
    not valid JSON. *)
Lemma Unmarshal_Valid (data : string) :
  GoJSON.Valid data = false → isOk (GoJSON.Unmarshal data) = false.
Proof.
  unfold GoJSON.Valid, GoJSON.Unmarshal. by destruct (GoJSON.decode data).
Qed.

(** It fails on some valid JSON too: on an object with a number beyond the
    range of [float64], at any depth; the largest [float64] and numbers too
    small for one are accepted. *)
Example test_number_out_of_range :
  GoJSON.Valid (GoJSON.js "{'x': 1e999}") = true ∧
  GoJSON.Unmarshal (GoJSON.js "{'x': 1e999}") =
    Err (errors_New
           "json: cannot unmarshal number into Go value of type float64") ∧
  isOk (GoJSON.Unmarshal (GoJSON.js "{'a': [{'b': -1E+400}], 'c': 1}")) =
    false ∧
  isOk (GoJSON.Unmarshal (GoJSON.js "{'x': 1.7976931348623159e308}")) =
    false ∧
  isOk (GoJSON.Unmarshal
          (GoJSON.js "{'x': 1.7976931348623158e308, 'y': 1e-999}")) = true.
Proof. repeat split; vm_compute; reflexivity. Qed.

(** C5 as stated fails: the arguments text [[1,2]] is valid JSON, and the
    call is refused all the same, since it is no object. *)
Lemma toGenkitToolRequestParts_valid_json_counterexample :
  let call :=
    Client.ToolCall.mk "call_1" "function"
      (Client.FunctionToCall.mk "get_weather" "[1,2]") in
  GoJSON.Valid "[1,2]" = true ∧
  @Client.toGenkitToolRequestParts GoJSON.json [call] =
    Err (toolArgumentsError "get_weather"
           (errors_New
              "json: cannot unmarshal into Go value of type map[string]interface {}")).
Proof. split; vm_compute; reflexivity. Qed.

(** ** Encoding a model turn *)

Section client_encoding.
Context `{encoding_json}.

Lemma mapR_toolCallR (reqs : list ToolRequest.t) (arguments : list string) :
  Forall2 (λ tr a, json_Marshal (ToolRequest.Input tr) = Ok a) reqs arguments →
  mapR toolCallR reqs = Ok (zip_with toolCallOf reqs arguments).
Proof.
  induction 1 as [|tr a reqs arguments Ha _ IH]; [done|].
  cbn [mapR zip_with]. unfold toolCallR at 1. by rewrite Ha, IH.
Qed.

Lemma mapR_toolResultR (resps : list ToolResponse.t) (contents : list string) :
  Forall2 (λ tr c, json_Marshal (ToolResponse.Output tr) = Ok c) resps contents →
  mapR toolResultR resps = Ok (zip_with toolResultOf resps contents).
Proof.
  induction 1 as [|tr c resps contents Hc _ IH]; [done|].
  cbn [mapR zip_with]. unfold toolResultR at 1. by rewrite Hc, IH.
Qed.

Lemma Forall_isOk_Forall2 {A B} (f : A → Result B) (l : list A) :
  Forall (λ a, isOk (f a) = true) l → ∃ bs, Forall2 (λ a b, f a = Ok b) l bs.
Proof.
  induction 1 as [|a l Ha _ [bs IH]]; [by exists []|].
  destruct (f a) as [b|] eqn:Hb; [|done].
  exists (b :: bs). by constructor.
Qed.

Lemma wireOf_model (parts : list Part) :
  wireOf (Message.mk RoleModel parts) =
  match mapR toolCallR (toolRequests parts) with
  | Err e => Err e
  | Ok [] =>
      Ok (if decide (Message.textOf parts = "") then []
          else [Client.ChatMessage "assistant" (Message.textOf parts)])
  | Ok toolCalls => Ok [Client.ResponseMessage "assistant" toolCalls (Some "")]
  end.
Proof. reflexivity. Qed.

Lemma wireOf_tool (parts : list Part) :
  wireOf (Message.mk RoleTool parts) = mapR toolResultR (toolResponses parts).
Proof. reflexivity. Qed.

Lemma zip_with_toolCallOf_ID (reqs : list ToolRequest.t) (arguments : list string) :
  length reqs = length arguments →
  map Client.ToolCall.ID (zip_with toolCallOf reqs arguments) =
  map ToolRequest.Ref reqs.
Proof.
  revert arguments. induction reqs as [|tr reqs IH]; intros [|a arguments];
    try done.
  intros [= Hlen]. cbn. by rewrite IH.
Qed.

Lemma toClientMessages_model_calls
    (pre post : list Message.t) (parts : list Part)
    (wpre wpost : list Client.Message) (arguments : list string) :
  Client.toClientMessages pre = Ok wpre →
  Client.toClientMessages post = Ok wpost →
  toolRequests parts ≠ [] →
  Forall2 (λ tr a, json_Marshal (ToolRequest.Input tr) = Ok a)
    (toolRequests parts) arguments →
  Client.toClientMessages (pre ++ Message.mk RoleModel parts :: post) =
  Ok (wpre ++
      Client.ResponseMessage "assistant"
        (zip_with toolCallOf (toolRequests parts) arguments) (Some "")
      :: wpost).
Proof.
  intros Hpre Hpost Hsome Hargs.
  rewrite (toClientMessages_middle _ _ _ _ _ Hpre Hpost), wireOf_model.
  rewrite (mapR_toolCallR _ _ Hargs).
  destruct Hargs as [|tr a reqs arguments]; [done|]. reflexivity.
Qed.

End client_encoding.

(** C3: a model message with at least one tool request, all of whose inputs
    have a JSON encoding, is encoded as exactly one assistant message whose
    tool calls mirror the tool requests in order (id = ref, type "function",
    the same name, arguments = the encoded input) and whose content is the
    explicit empty string, whatever text parts the message has; a model
    message without tool requests is encoded as one assistant chat message
    with its concatenated text when that is not empty, and as nothing when it
    is. *)
Theorem model_turn_encoding `{encoding_json}
    (pre post : list Message.t) (parts : list Part)
    (wpre wpost : list Client.Message) :
  Client.toClientMessages pre = Ok wpre →
  Client.toClientMessages post = Ok wpost →
  (∀ arguments : list string,
     toolRequests parts ≠ [] →
     Forall2 (λ tr a, json_Marshal (ToolRequest.Input tr) = Ok a)
       (toolRequests parts) arguments →
     Client.toClientMessages (pre ++ Message.mk RoleModel parts :: post) =
     Ok (wpre ++
         Client.ResponseMessage "assistant"
           (zip_with toolCallOf (toolRequests parts) arguments) (Some "")
         :: wpost)) ∧
  (toolRequests parts = [] →
   Client.toClientMessages (pre ++ Message.mk RoleModel parts :: post) =
   Ok (wpre ++
       (if decide (Message.textOf parts = "") then []
        else [Client.ChatMessage "assistant" (Message.textOf parts)]) ++
       wpost)).
Proof.
  intros Hpre Hpost. split.
  - intros arguments Hsome Hargs. by apply toClientMessages_model_calls.
  - intros Hnone.
    rewrite (toClientMessages_middle _ _ _ _ _ Hpre Hpost), wireOf_model.
    by rewrite Hnone.
Qed.

(** The test "Model message with both tool request and text content",
    after a user message, and a model message with text only. *)
Lemma model_turn_encoding_witness :
  let request :=
    ToolRequest.mk "combo-id-1" "someTool" (Map {["arg" := Str "value"]}) in
  let parts := [TextPart "I will now call the tool."; ToolRequestPart request] in
  let pre := [Message.mk RoleUser [TextPart "Hello"]] in
  let arguments := GoJSON.js "{'arg':'value'}" in
  @Client.toClientMessages GoJSON.json (pre ++ [Message.mk RoleModel parts]) =
    Ok [Client.ChatMessage "user" "Hello";
        Client.ResponseMessage "assistant"
          [Client.ToolCall.mk "combo-id-1" "function"
             (Client.FunctionToCall.mk "someTool" arguments)]
          (Some "")] ∧
  @Client.toClientMessages GoJSON.json
    (pre ++ [Message.mk RoleModel [TextPart "Go is "; TextPart "a language."]]) =
    Ok [Client.ChatMessage "user" "Hello";
        Client.ChatMessage "assistant" "Go is a language."].
Proof.
  intros request parts pre arguments. split.
  - refine (proj1 (@model_turn_encoding GoJSON.json pre [] parts
                     [Client.ChatMessage "user" "Hello"] [] _ _)
              [arguments] _ _).
    + reflexivity.
    + reflexivity.
    + discriminate.
    + repeat constructor.
  - refine (proj2 (@model_turn_encoding GoJSON.json pre []
                     [TextPart "Go is "; TextPart "a language."]
                     [Client.ChatMessage "user" "Hello"] [] _ _) _);
      reflexivity.
Defined.

(** ** Tool correlation across a round trip *)

(** C1: a model turn with k >= 1 tool requests whose inputs have a JSON
    encoding is encoded as one assistant message with k tool calls whose ids
    are the refs of the requests, in the order of the parts; and every
    provider reply that carries tool calls with those ids, with arguments
    that decode, is decoded into k tool-request parts whose refs are those
    ids, in the same order. *)
Theorem tool_correlation_roundtrip `{encoding_json}
    (pre post : list Message.t) (parts : list Part)
    (wpre wpost : list Client.Message) :
  toolRequests parts ≠ [] →
  Forall (λ tr, isOk (json_Marshal (ToolRequest.Input tr)) = true)
    (toolRequests parts) →
  Client.toClientMessages pre = Ok wpre →
  Client.toClientMessages post = Ok wpost →
  ∃ toolCalls : list Client.ToolCall.t,
    Client.toClientMessages (pre ++ Message.mk RoleModel parts :: post) =
      Ok (wpre ++ Client.ResponseMessage "assistant" toolCalls (Some "")
          :: wpost) ∧
    map Client.ToolCall.ID toolCalls =
      map ToolRequest.Ref (toolRequests parts) ∧
    ∀ reply : list Client.ToolCall.t,
      map Client.ToolCall.ID reply = map Client.ToolCall.ID toolCalls →
      Forall
        (λ call,
           isOk (json_Unmarshal
                   (Client.FunctionToCall.Arguments
                      (Client.ToolCall.Function call))) = true)
        reply →
      ∃ decoded : list ToolRequest.t,
        Client.toGenkitToolRequestParts reply =
          Ok (map ToolRequestPart decoded) ∧
        length decoded = length (toolRequests parts) ∧
        map ToolRequest.Ref decoded =
          map ToolRequest.Ref (toolRequests parts).
Proof.
  intros Hsome Hinputs Hpre Hpost.
  destruct (Forall_isOk_Forall2 _ _ Hinputs) as [arguments Hargs].
  exists (zip_with toolCallOf (toolRequests parts) arguments).
  pose proof (zip_with_toolCallOf_ID _ _ (Forall2_length _ _ _ Hargs)) as Hids.
  split; [|split; [exact Hids|]].
  - by apply toClientMessages_model_calls.
  - intros reply Hreply Hdecodable. rewrite Hids in Hreply. clear Hids.
    rewrite toGenkitToolRequestParts_mapR.
    assert (∃ decoded : list ToolRequest.t,
              mapR toolRequestPartR reply = Ok (map ToolRequestPart decoded) ∧
              map ToolRequest.Ref decoded = map Client.ToolCall.ID reply)
      as (decoded & Hdecoded & Hrefs).
    { clear Hreply. induction Hdecodable as [|call reply Hcall _ IH].
      - by exists [].
      - destruct IH as (decoded & Hdecoded & Hrefs). cbn [mapR].
        unfold toolRequestPartR at 1, toolRequestPartOf.
        destruct (json_Unmarshal _) as [rawArgs|]; [|done].
        eexists (_ :: decoded). rewrite Hdecoded. split; [reflexivity|].
        cbn. by rewrite Hrefs. }
    exists decoded. split; [exact Hdecoded|]. split; [|congruence].
    rewrite <- (length_map ToolRequest.Ref decoded), Hrefs, Hreply.
    by rewrite length_map.
Qed.

(** The test "Multiple tool calls in a single turn": the reply carries the
    tool calls of the encoded assistant message themselves. *)
Lemma tool_correlation_roundtrip_witness :
  let findUser :=
    ToolRequest.mk "multi-id-1" "findUser" (Map {["username" := Str "jdoe"]}) in
  let getLastLogin :=
    ToolRequest.mk "multi-id-2" "getLastLogin"
      (Map {["userId" := Str "user-456"]}) in
  let calls :=
    [toolCallOf findUser (GoJSON.js "{'username':'jdoe'}");
     toolCallOf getLastLogin (GoJSON.js "{'userId':'user-456'}")] in
  let history :=
    [Message.mk RoleUser
       [TextPart "Find user 'jdoe' and get their last login."];
     Message.mk RoleModel
       [ToolRequestPart findUser; ToolRequestPart getLastLogin];
     Message.mk RoleTool
       [ToolResponsePart
          (ToolResponse.mk "multi-id-1" "findUser"
             (Map {["userId" := Str "user-456"]}));
        ToolResponsePart
          (ToolResponse.mk "multi-id-2" "getLastLogin"
             (Map {["timestamp" := Str "2025-07-28T14:30:00Z"]}))]] in
  @Client.toClientMessages GoJSON.json history =
    Ok [Client.ChatMessage "user" "Find user 'jdoe' and get their last login.";
        Client.ResponseMessage "assistant" calls (Some "");
        Client.ToolMessage "tool" (GoJSON.js "{'userId':'user-456'}")
          "multi-id-1";
        Client.ToolMessage "tool"
          (GoJSON.js "{'timestamp':'2025-07-28T14:30:00Z'}") "multi-id-2"] ∧
  ∃ decoded : list ToolRequest.t,
    @Client.toGenkitToolRequestParts GoJSON.json calls =
      Ok (map ToolRequestPart decoded) ∧
    map ToolRequest.Ref decoded = ["multi-id-1"; "multi-id-2"].
Proof.
  intros findUser getLastLogin calls history.
  split; [vm_compute; reflexivity|].
  destruct (@tool_correlation_roundtrip GoJSON.json
              (take 1 history) (drop 2 history)
              [ToolRequestPart findUser; ToolRequestPart getLastLogin]
              [Client.ChatMessage "user"
                 "Find user 'jdoe' and get their last login."]
              [Client.ToolMessage "tool" (GoJSON.js "{'userId':'user-456'}")
                 "multi-id-1";
               Client.ToolMessage "tool"
                 (GoJSON.js "{'timestamp':'2025-07-28T14:30:00Z'}")
                 "multi-id-2"])
    as (toolCalls & Hencoded & Hids & Hreply).
  - discriminate.
  - repeat (constructor; [vm_compute; reflexivity|]). constructor.
  - vm_compute. reflexivity.
  - vm_compute. reflexivity.
  - destruct (Hreply calls) as (decoded & Hdecoded & _ & Hrefs).
    + rewrite Hids. reflexivity.
    + repeat (constructor; [vm_compute; reflexivity|]). constructor.
    + exists decoded. split; [exact Hdecoded | exact Hrefs].
Defined.

(** ** Encoding a tool turn *)

Section client_failures.
Context `{encoding_json}.

(** A history with a message that cannot be encoded cannot be encoded. *)
Lemma toClientMessages_fails_at (history : list Message.t) (msg : Message.t) :
  msg ∈ history → isOk (wireOf msg) = false →
  isOk (Client.toClientMessages history) = false.
Proof.
  intros Hin Hmsg. apply list_elem_of_split in Hin as (pre & post & ->).
  rewrite toClientMessages_app, toClientMessages_cons.
  destruct (Client.toClientMessages pre); [|done].
  by destruct (wireOf msg).
Qed.

Lemma mapR_fails_at {A B} (f : A → Result B) (l : list A) (a : A) :
  a ∈ l → isOk (f a) = false → isOk (mapR f l) = false.
Proof.
  intros Hin Ha. apply list_elem_of_split in Hin as (pre & post & ->).
  rewrite mapR_app. destruct (mapR f pre); [|done].
  cbn [mapR]. by destruct (f a).
Qed.

Lemma elem_of_toolResponses (parts : list Part) (tr : ToolResponse.t) :
  tr ∈ toolResponses parts ↔ ToolResponsePart tr ∈ parts.
Proof.
  unfold toolResponses. rewrite list_elem_of_omap. split.
  - intros (part & Hin & Hpart). by destruct part; simplify_eq.
  - intros Hin. by exists (ToolResponsePart tr).
Qed.

Lemma elem_of_toolRequests (parts : list Part) (tr : ToolRequest.t) :
  tr ∈ toolRequests parts ↔ ToolRequestPart tr ∈ parts.
Proof.
  unfold toolRequests. rewrite list_elem_of_omap. split.
  - intros (part & Hin & Hpart). by destruct part; simplify_eq.
  - intros Hin. by exists (ToolRequestPart tr).
Qed.

Lemma toolResponses_app (before after : list Part) :
  toolResponses (before ++ after) = toolResponses before ++ toolResponses after.
Proof. apply omap_app. Qed.

End client_failures.

(** C4: a tool message whose tool responses all have an output with a JSON
    encoding is encoded as one tool-result message per tool response, in the
    order of the parts, with content = the encoded output and toolCallID =
    ref.  When the output of a tool response cannot be encoded, the encoding
    of the whole history fails, and the error names the tool of the first
    such response (wrapping the encoder's error). *)
Theorem tool_turn_encoding `{encoding_json} :
  (∀ (pre post : list Message.t) (parts : list Part)
     (wpre wpost : list Client.Message) (contents : list string),
     Client.toClientMessages pre = Ok wpre →
     Client.toClientMessages post = Ok wpost →
     Forall2 (λ tr c, json_Marshal (ToolResponse.Output tr) = Ok c)
       (toolResponses parts) contents →
     Client.toClientMessages (pre ++ Message.mk RoleTool parts :: post) =
     Ok (wpre ++ zip_with toolResultOf (toolResponses parts) contents ++ wpost)) ∧
  (∀ (pre post : list Message.t) (before after : list Part)
     (tr : ToolResponse.t) (wpre : list Client.Message) (err : error),
     Client.toClientMessages pre = Ok wpre →
     Forall (λ tr, isOk (json_Marshal (ToolResponse.Output tr)) = true)
       (toolResponses before) →
     json_Marshal (ToolResponse.Output tr) = Err err →
     Client.toClientMessages
       (pre ++ Message.mk RoleTool (before ++ ToolResponsePart tr :: after)
        :: post) =
     Err (toolOutputError (ToolResponse.Name tr) err)) ∧
  (∀ (history : list Message.t) (parts : list Part) (tr : ToolResponse.t),
     Message.mk RoleTool parts ∈ history →
     ToolResponsePart tr ∈ parts →
     isOk (json_Marshal (ToolResponse.Output tr)) = false →
     isOk (Client.toClientMessages history) = false).
Proof.
  split; [|split].
  - intros pre post parts wpre wpost contents Hpre Hpost Hcontents.
    rewrite (toClientMessages_middle _ _ _ _ _ Hpre Hpost), wireOf_tool.
    by rewrite (mapR_toolResultR _ _ Hcontents).
  - intros pre post before after tr wpre err Hpre Hbefore Herr.
    rewrite toClientMessages_app, Hpre, toClientMessages_cons, wireOf_tool.
    assert (mapR toolResultR
              (toolResponses (before ++ ToolResponsePart tr :: after)) =
            Err (toolOutputError (ToolResponse.Name tr) err)) as ->; [|done].
    apply mapR_Err.
    exists (toolResponses before), tr, (toolResponses after). repeat split.
    + by rewrite toolResponses_app.
    + eapply Forall_impl; [exact Hbefore|]. intros tr'. cbn beta.
      unfold toolResultR.
      by destruct (json_Marshal (ToolResponse.Output tr')).
    + unfold toolResultR. by rewrite Herr.
  - intros history parts tr Hmsg Hpart Hfail.
    apply (toClientMessages_fails_at _ _ Hmsg). rewrite wireOf_tool.
    apply (mapR_fails_at _ _ tr); [by apply elem_of_toolResponses|].
    unfold toolResultR.
    by destruct (json_Marshal (ToolResponse.Output tr)).
Qed.

(** The tool turn of the test "Multiple tool calls in a single turn", and
    the test "Error on unmarshalable tool response output" after a response
    that can be encoded. *)
Lemma tool_turn_encoding_witness :
  let findUser :=
    ToolResponse.mk "multi-id-1" "findUser"
      (Map {["userId" := Str "user-456"]}) in
  let getLastLogin :=
    ToolResponse.mk "multi-id-2" "getLastLogin"
      (Map {["timestamp" := Str "2025-07-28T14:30:00Z"]}) in
  let badTool := ToolResponse.mk "bad-id-1" "badTool" Chan in
  let user := Message.mk RoleUser [TextPart "Find user 'jdoe'."] in
  @Client.toClientMessages GoJSON.json
    [user;
     Message.mk RoleTool
       [ToolResponsePart findUser; ToolResponsePart getLastLogin]] =
    Ok [Client.ChatMessage "user" "Find user 'jdoe'.";
        Client.ToolMessage "tool" (GoJSON.js "{'userId':'user-456'}")
          "multi-id-1";
        Client.ToolMessage "tool"
          (GoJSON.js "{'timestamp':'2025-07-28T14:30:00Z'}") "multi-id-2"] ∧
  @Client.toClientMessages GoJSON.json
    [user;
     Message.mk RoleTool
       [ToolResponsePart findUser; ToolResponsePart badTool;
        ToolResponsePart getLastLogin];
     user] =
    Err (toolOutputError "badTool"
           (errors_New "json: unsupported type: chan int")) ∧
  isOk (@Client.toClientMessages GoJSON.json
          [Message.mk RoleTool [ToolResponsePart badTool]; user]) = false.
Proof.
  intros findUser getLastLogin badTool user.
  destruct (@tool_turn_encoding GoJSON.json) as (Hok & Hfirst & Hfails).
  split; [|split].
  - apply (Hok [user] []
             [ToolResponsePart findUser; ToolResponsePart getLastLogin]
             [Client.ChatMessage "user" "Find user 'jdoe'."] []
             [GoJSON.js "{'userId':'user-456'}";
              GoJSON.js "{'timestamp':'2025-07-28T14:30:00Z'}"]).
    + reflexivity.
    + reflexivity.
    + repeat (constructor; [vm_compute; reflexivity|]). constructor.
  - apply (Hfirst [user] [user] [ToolResponsePart findUser]
             [ToolResponsePart getLastLogin] badTool
             [Client.ChatMessage "user" "Find user 'jdoe'."]).
    + reflexivity.
    + constructor; [vm_compute; reflexivity | constructor].
    + reflexivity.
  - apply (Hfails _ [ToolResponsePart badTool] badTool).
    + apply list_elem_of_here.
    + apply list_elem_of_here.
    + reflexivity.
Defined.

(** ** Errors of the conversation encoder *)

Section client_errors.
Context `{encoding_json}.

Lemma wireOf_Err (msg : Message.t) (err : error) :
  wireOf msg = Err err →
  (Message.Role msg = RoleModel ∧
   ∃ tr e, ToolRequestPart tr ∈ Message.Content msg ∧
     json_Marshal (ToolRequest.Input tr) = Err e ∧
     err = toolInputError (ToolRequest.Name tr) e) ∨
  (Message.Role msg = RoleTool ∧
   ∃ tr e, ToolResponsePart tr ∈ Message.Content msg ∧
     json_Marshal (ToolResponse.Output tr) = Err e ∧
     err = toolOutputError (ToolResponse.Name tr) e).
Proof.
  unfold wireOf. case_decide as Htool; [|case_decide as Hmodel].
  - intros (good & tr & rest & Hparts & _ & Htr)%mapR_Err. right.
    split; [done|]. unfold toolResultR in Htr.
    destruct (json_Marshal (ToolResponse.Output tr)) as [|e] eqn:He; [done|].
    exists tr, e. split; [|by simplify_eq].
    apply elem_of_toolResponses. rewrite Hparts. set_solver.
  - destruct (mapR toolCallR _) as [[|call calls]|err'] eqn:Hcalls; try done.
    intros [= ->].
    apply mapR_Err in Hcalls as (good & tr & rest & Hparts & _ & Htr).
    left. split; [done|]. unfold toolCallR in Htr.
    destruct (json_Marshal (ToolRequest.Input tr)) as [|e] eqn:He; [done|].
    exists tr, e. split; [|by simplify_eq].
    apply elem_of_toolRequests. rewrite Hparts. set_solver.
  - by repeat case_decide.
Qed.

Lemma toolRequests_text (parts : list Part) :
  Forall (λ part, IsText part = true) parts → toolRequests parts = [].
Proof. induction 1 as [|[] parts]; by simplify_eq/=. Qed.

Lemma toolResponses_text (parts : list Part) :
  Forall (λ part, IsText part = true) parts → toolResponses parts = [].
Proof. induction 1 as [|[] parts]; by simplify_eq/=. Qed.

Lemma wireOf_text (msg : Message.t) :
  Forall (λ part, IsText part = true) (Message.Content msg) →
  isOk (wireOf msg) = true.
Proof.
  intros Htext. unfold wireOf.
  rewrite (toolRequests_text _ Htext), (toolResponses_text _ Htext).
  by repeat case_decide.
Qed.

Lemma toolRequests_filter (parts : list Part) :
  toolRequests (List.filter (λ part, negb (isOtherPart part)) parts) =
  toolRequests parts.
Proof.
  unfold toolRequests.
  induction parts as [|[] parts IH]; cbn; by rewrite ?IH.
Qed.

Lemma toolResponses_filter (parts : list Part) :
  toolResponses (List.filter (λ part, negb (isOtherPart part)) parts) =
  toolResponses parts.
Proof.
  unfold toolResponses.
  induction parts as [|[] parts IH]; cbn; by rewrite ?IH.
Qed.

Lemma toolWire_app (w1 w2 : list Client.Message) :
  toolWire (w1 ++ w2) = toolWire w1 ++ toolWire w2.
Proof. apply List.filter_app. Qed.

(** The parts that are neither text nor a tool request nor a tool response
    bear on the chat messages alone. *)
Lemma wireOf_withoutOtherParts (msg : Message.t) :
  sameToolWire (wireOf (withoutOtherParts msg)) (wireOf msg).
Proof.
  destruct msg as [role parts]. unfold wireOf, withoutOtherParts.
  cbn [Message.Role Message.Content].
  rewrite toolRequests_filter, toolResponses_filter.
  case_decide; [by destruct (mapR toolResultR _)|].
  case_decide.
  { destruct (mapR toolCallR _) as [[|call calls]|]; [|done..].
    by repeat case_decide. }
  by repeat case_decide.
Qed.

Lemma sameToolWire_prepend (w w' : list Client.Message)
    (r r' : Result (list Client.Message)) :
  toolWire w = toolWire w' → sameToolWire r r' →
  sameToolWire (prepend w r) (prepend w' r').
Proof.
  intros Hw. destruct r, r'; cbn; try done.
  intros Hr. by rewrite !toolWire_app, Hw, Hr.
Qed.

End client_errors.

(** The sound part of C10: [toClientMessages] fails only when the input of
    a tool request in a model message, or the output of a tool response in a
    tool message, has no JSON encoding (and the error is the one built for
    that part); it succeeds on every history made of text parts; and the
    parts that are neither text nor a tool request nor a tool response cause
    no error and leave the tool results and the assistant messages with tool
    calls as they are. *)
Theorem toClientMessages_errors `{encoding_json} :
  (∀ (history : list Message.t) (err : error),
     Client.toClientMessages history = Err err →
     ∃ msg, msg ∈ history ∧
       ((Message.Role msg = RoleModel ∧
         ∃ tr e, ToolRequestPart tr ∈ Message.Content msg ∧
           json_Marshal (ToolRequest.Input tr) = Err e ∧
           err = toolInputError (ToolRequest.Name tr) e) ∨
        (Message.Role msg = RoleTool ∧
         ∃ tr e, ToolResponsePart tr ∈ Message.Content msg ∧
           json_Marshal (ToolResponse.Output tr) = Err e ∧
           err = toolOutputError (ToolResponse.Name tr) e))) ∧
  (∀ history : list Message.t,
     Forall
       (λ msg, Forall (λ part, IsText part = true) (Message.Content msg))
       history →
     isOk (Client.toClientMessages history) = true) ∧
  (∀ history : list Message.t,
     sameToolWire
       (Client.toClientMessages (map withoutOtherParts history))
       (Client.toClientMessages history)).
Proof.
  split; [|split].
  - intros history err. induction history as [|msg history IH]; [done|].
    rewrite toClientMessages_cons.
    destruct (wireOf msg) as [w|err'] eqn:Hmsg.
    + destruct (Client.toClientMessages history) as [|err'']; [done|].
      intros [= ->]. destruct (IH eq_refl) as (msg' & Hin & Hwhy).
      exists msg'. split; [by apply list_elem_of_further | done].
    + intros [= ->]. exists msg. split; [apply list_elem_of_here|].
      by apply wireOf_Err.
  - induction 1 as [|msg history Hmsg _ IH]; [done|].
    rewrite toClientMessages_cons.
    pose proof (wireOf_text msg Hmsg) as Hok.
    destruct (wireOf msg); [|done].
    by destruct (Client.toClientMessages history).
  - intros history. induction history as [|msg history IH]; [done|].
    cbn [map]. rewrite !toClientMessages_cons.
    pose proof (wireOf_withoutOtherParts msg) as Hmsg.
    destruct (wireOf (withoutOtherParts msg)), (wireOf msg); try done.
    by apply sameToolWire_prepend.
Qed.

(** A model message whose tool input is a channel, and a history of
    text. *)
Example test_unencodable_input :
  let request := ToolRequest.mk "id-1" "someTool" (Map {["arg" := Chan]}) in
  @Client.toClientMessages GoJSON.json
    [Message.mk RoleUser [TextPart "Hi"];
     Message.mk RoleModel [ToolRequestPart request]] =
    Err (toolInputError "someTool"
           (errors_New "json: unsupported type: chan int")) ∧
  isOk (@Client.toClientMessages GoJSON.json
          [Message.mk RoleSystem [TextPart "Be brief."];
           Message.mk RoleUser [TextPart "Hi"];
           Message.mk RoleModel [TextPart "Hello"];
           Message.mk RoleTool [TextPart "note"]]) = true.
Proof. split; vm_compute; reflexivity. Qed.


(** ** Provider-reported failure *)

(** C6, as amended: a reply with success = false never yields a canonical
    response.  The REST adapter fails with [fmt.Errorf(message)] for the
    message of the first reported error alone (its code is not carried), or
    for "API request failed" when no error is reported; the client-library
    adapter fails with one error built from the whole list of reported
    errors, empty or not. *)
Theorem provider_failure :
  (∀ (N : Http.net_http) (resp : Http.Response.t) (input : ModelRequest.t)
     (workerResp : Http.workersAIResponse.t),
     Http.Response.ReadAll_err resp = None →
     Http.json_Unmarshal_workersAIResponse (Http.Response.Body resp) =
       Ok workerResp →
     Http.workersAIResponse.Success workerResp = false →
     Http.handleResponse resp input =
     Err (fmt_Errorf
            match Http.workersAIResponse.Errors workerResp with
            | first :: _ => APIError.Message first
            | [] => "API request failed"
            end [])) ∧
  (∀ (J : encoding_json) (W : Client.workers_ai) (gen : Client.generator.t)
     (input : ModelRequest.t) clientTools clientMessages
     (resp : Client.Response.t),
     Client.toClientTools (ModelRequest.Tools input) = Ok clientTools →
     Client.toClientMessages (ModelRequest.Messages input) = Ok clientMessages →
     Client.ChatWithTools (Client.generator.client gen)
       (Client.generator.model gen) clientMessages clientTools = Ok resp →
     Client.Response.Success resp = false →
     Client.generate gen input =
     Err (fmt_Errorf "workersai API returned an error: %v"
            [OpErrors (Client.Response.Errors resp)])).
Proof.
  split.
  - intros N resp input workerResp Hread Hparse Hfailed.
    unfold Http.handleResponse. rewrite Hread, Hparse, Hfailed. cbn [negb].
    by destruct (Http.workersAIResponse.Errors workerResp).
  - intros J W gen input clientTools clientMessages resp Htools Hmsgs Hcall
      Hfailed.
    unfold Client.generate. by rewrite Htools, Hmsgs, Hcall, Hfailed.
Qed.

(** A reply of the REST endpoint with two errors, one with none, and a reply
    of the client library with one error. *)
Lemma provider_failure_witness :
  let input := ModelRequest.mk [Message.mk RoleUser [TextPart "Hi"]] [] in
  let reply (body : string) := Http.Response.mk 200 (GoJSON.js body) None in
  let failed :=
    Client.Response.mk false [APIError.mk 7003 "no route"] false
      (Client.Usage.mk 0 0) (Client.Usage.mk 0 0) [] "" in
  let gen := @Client.generator.mk GoJSON.client "m" (λ _ _, Ok failed) in
  @Http.handleResponse GoJSON.http
    (reply "{'success':false,'errors':[{'code':7003,'message':'no route'},{'code':1,'message':'x'}]}")
    input = Err (fmt_Errorf "no route" []) ∧
  @Http.handleResponse GoJSON.http (reply "{'success':false,'errors':[]}")
    input = Err (fmt_Errorf "API request failed" []) ∧
  @Client.generate GoJSON.json GoJSON.client gen input =
    Err (fmt_Errorf "workersai API returned an error: %v"
           [OpErrors [APIError.mk 7003 "no route"]]).
Proof.
  intros input reply failed gen.
  destruct provider_failure as [Hhttp Hclient].
  split; [|split].
  - apply (Hhttp GoJSON.http _ input
             (Http.workersAIResponse.mk false ""
                [APIError.mk 7003 "no route"; APIError.mk 1 "x"] []));
      [reflexivity | vm_compute; reflexivity | reflexivity].
  - apply (Hhttp GoJSON.http _ input
             (Http.workersAIResponse.mk false "" [] []));
      [reflexivity | vm_compute; reflexivity | reflexivity].
  - apply (Hclient GoJSON.json GoJSON.client gen input []
             [Client.ChatMessage "user" "Hi"] failed); reflexivity.
Defined.

(** C6 as stated fails on the REST adapter: the error does not carry the
    code of the first reported error, so two replies that differ in the code
    alone fail with the same error. *)
Lemma provider_failure_code_counterexample :
  let input := ModelRequest.mk [Message.mk RoleUser [TextPart "Hi"]] [] in
  let reply (body : string) := Http.Response.mk 200 (GoJSON.js body) None in
  GoJSON.decodeResponse
    (GoJSON.js "{'success':false,'errors':[{'code':7003,'message':'no route'}]}") =
    Ok (Http.workersAIResponse.mk false "" [APIError.mk 7003 "no route"] []) ∧
  @Http.handleResponse GoJSON.http
    (reply "{'success':false,'errors':[{'code':7003,'message':'no route'}]}")
    input = Err (fmt_Errorf "no route" []) ∧
  @Http.handleResponse GoJSON.http
    (reply "{'success':false,'errors':[{'code':10000,'message':'no route'}]}")
    input = Err (fmt_Errorf "no route" []).
Proof. repeat split; vm_compute; reflexivity. Qed.

(** ** The unit tests of the plugin, replayed *)

(** [TestToGenkitToolRequestParts]: "should correctly parse and simplify
    verbose argument format". *)
Example test_verbose_arguments :
  @Client.toGenkitToolRequestParts GoJSON.json
    [Client.ToolCall.mk "call_verbose_456" "function"
       (Client.FunctionToCall.mk "gablorken"
          (GoJSON.js "{'Over': {'type': 'number', 'value': 3.5}, 'Value': {'type': 'integer', 'value': 2}}"))] =
  Ok [ToolRequestPart
        (ToolRequest.mk "call_verbose_456" "gablorken"
           (Map (<["Over" := Number "3.5"]> {["Value" := Number "2"]})))].
Proof. vm_compute. reflexivity. Qed.

(** [TestToGenkitToolRequestParts]: "should correctly parse simple argument
    format". *)
Example test_simple_arguments :
  @Client.toGenkitToolRequestParts GoJSON.json
    [Client.ToolCall.mk "call_simple_123" "function"
       (Client.FunctionToCall.mk "get_weather"
          (GoJSON.js "{'location': 'Eindhoven, NL', 'unit': 'celsius'}"))] =
  Ok [ToolRequestPart
        (ToolRequest.mk "call_simple_123" "get_weather"
           (Map (<["location" := Str "Eindhoven, NL"]>
                   {["unit" := Str "celsius"]})))].
Proof. vm_compute. reflexivity. Qed.

(** [TestToGenkitToolRequestParts]: "should return an error for malformed
    arguments JSON" and "should return an empty slice for no tool calls". *)
Example test_malformed_arguments :
  isOk (@Client.toGenkitToolRequestParts GoJSON.json
          [Client.ToolCall.mk "" ""
             (Client.FunctionToCall.mk "get_weather"
                (GoJSON.js "{'location': 'Eindhoven, NL',"))]) = false ∧
  @Client.toGenkitToolRequestParts GoJSON.json [] = Ok [].
Proof. split; vm_compute; reflexivity. Qed.

(** [TestToClientMessages]: "Full tool call and response sequence". *)
Example test_full_tool_sequence :
  @Client.toClientMessages GoJSON.json
    [Message.mk RoleUser [TextPart "what is a gablorken of 2 over 3.5?"];
     Message.mk RoleModel
       [ToolRequestPart
          (ToolRequest.mk "tool-call-id-123" "gablorken"
             (Map (<["Value" := Number "2"]> {["Over" := Number "3.5"]})))];
     Message.mk RoleTool
       [ToolResponsePart
          (ToolResponse.mk "tool-call-id-123" "gablorken"
             (Map {["result" := Number "11.31"]}))]] =
  Ok [Client.ChatMessage "user" "what is a gablorken of 2 over 3.5?";
      Client.ResponseMessage "assistant"
        [Client.ToolCall.mk "tool-call-id-123" "function"
           (Client.FunctionToCall.mk "gablorken"
              (GoJSON.js "{'Over':3.5,'Value':2}"))]
        (Some "");
      Client.ToolMessage "tool" (GoJSON.js "{'result':11.31}")
        "tool-call-id-123"].
Proof. vm_compute. reflexivity. Qed.

(** [TestToClientMessages]: "Tool with nested object parameter" and "Tool
    with array of strings" (the model turns). *)
Example test_nested_arguments :
  @Client.toClientMessages GoJSON.json
    [Message.mk RoleModel
       [ToolRequestPart
          (ToolRequest.mk "config-id-abc" "updateConfig"
             (Map (<["userId" := Str "user-1"]>
                     {["config" :=
                         Map (<["theme" := Str "dark"]>
                                {["notifications" := Bool true]})]})));
        ToolRequestPart
          (ToolRequest.mk "tags-id-def" "addTags"
             (Map (<["ticketId" := Number "123"]>
                     {["tags" := Slice [Str "urgent"; Str "review"]]})))]] =
  Ok [Client.ResponseMessage "assistant"
        [Client.ToolCall.mk "config-id-abc" "function"
           (Client.FunctionToCall.mk "updateConfig"
              (GoJSON.js "{'config':{'notifications':true,'theme':'dark'},'userId':'user-1'}"));
         Client.ToolCall.mk "tags-id-def" "function"
           (Client.FunctionToCall.mk "addTags"
              (GoJSON.js "{'tags':['urgent','review'],'ticketId':123}"))]
        (Some "")].
Proof. vm_compute. reflexivity. Qed.

(** A whole turn of the REST adapter: the request for a chat model, and the
    reply decoded into one text part. *)
Example test_rest_turn :
  let input := ModelRequest.mk [Message.mk RoleUser [TextPart "Hi"]] [] in
  let gen :=
    @Http.generator.mk GoJSON.http "meta/llama-3.3-70b-instruct-fp8-fast"
      "token" "acct" "https://api.cloudflare.com/client/v4"
      (λ req,
         if String.eqb (Http.Request.Body req)
              (GoJSON.js "{'messages':[{'role':'user','content':'Hi'}]}")
         then Ok (Http.Response.mk 200
                    (GoJSON.js "{'success':true,'result':{'response':'Hello'}}")
                    None)
         else Ok (Http.Response.mk 400 "unexpected request" None)) in
  @Http.generate GoJSON.http gen input false =
  Ok (ModelResponse.mk input (Message.mk RoleModel [TextPart "Hello"]) "stop"
        (GenerationUsage.mk 0 0)).
Proof. vm_compute. reflexivity. Qed.
